(** * simple-twitter-api: the data-retrieval layer, embedded and verified

    A shallow embedding of the service layer of the repository:
    - [app/models/tweet.py]                    the records [Account] and [Tweet];
    - [config.py], [app/utils/validators.py]   the limit validator;
    - [app/services/twitter_mock_service.py]   the synthetic backend;
    - [app/services/twitter_api_service.py]    the upstream (X API v2) backend;
    - [app/services/__init__.py]               the choice of the backend;
    - [app/routes/hashtags.py], [app/routes/users.py]   the two handlers.

    Modelling conventions.
    - A Python [str] is a [string] of ASCII characters; the builtins used by
      the code ([lstrip], [lower], [title], [split], [startswith], [replace],
      [int]) are written out for that range. A character from 128 on is left
      alone by them: what Python does with it (letters with a case, more
      white space and digits) is not modelled, and the model speaks for the
      code on the strings that satisfy [Py.isascii].
    - A Python [int] is a [Z].
    - A raised exception is the [Err] branch of [result]; code that draws
      random numbers or reads the clock runs in the monad [M] over a [World].
    - A dictionary is a [gmap]; a JSON payload is a record whose optional keys
      are [option] fields. *)

From Stdlib Require Import ZArith String Ascii List Lia Bool.
From Stdlib Require Import Numbers.DecimalString.
From Stdlib Require Import Numbers.DecimalPos Numbers.DecimalZ.
From stdpp Require Import base option list gmap strings.

Import ListNotations.
Local Open Scope Z_scope.

(** ** Exceptions and results *)

Inductive exn : Type :=
  | ValueError (msg : string)
  | RuntimeError (msg : string)
  | KeyError (key : string)
  | IndexError (msg : string)
  | OverflowError (msg : string)
  | AttributeError (msg : string).

Inductive result (A : Type) : Type :=
  | Ok (a : A)
  | Err (e : exn).
Arguments Ok {A} a.
Arguments Err {A} e.

(** [InvalidInput] of the specification is Python's [ValueError]. *)
Definition InvalidInput {A} (r : result A) : Prop :=
  match r with Err (ValueError _) => True | _ => False end.

Definition rbind {A B} (r : result A) (k : A -> result B) : result B :=
  match r with Ok a => k a | Err e => Err e end.

(** ** Python string builtins *)

Module Py.

Definition code (c : ascii) : N := N_of_ascii c.

(** [str.isspace] on one character: TAB, LF, VT, FF, CR, FS, GS, RS, US, SP. *)
Definition isspace (c : ascii) : bool :=
  let n := code c in
  ((9 <=? n) && (n <=? 13) || (28 <=? n) && (n <=? 32))%N.

Definition isdigit (c : ascii) : bool :=
  let n := code c in ((48 <=? n) && (n <=? 57))%N.

Definition isupper (c : ascii) : bool :=
  let n := code c in ((65 <=? n) && (n <=? 90))%N.

Definition islower (c : ascii) : bool :=
  let n := code c in ((97 <=? n) && (n <=? 122))%N.

Definition iscased (c : ascii) : bool := isupper c || islower c.

(** [s.isascii()] *)
Fixpoint isascii (s : string) : bool :=
  match s with
  | EmptyString => true
  | String c s' => (code c <? 128)%N && isascii s'
  end.

Definition lower_char (c : ascii) : ascii :=
  if isupper c then ascii_of_N (code c + 32) else c.

Definition upper_char (c : ascii) : ascii :=
  if islower c then ascii_of_N (code c - 32) else c.

(** [s.lower()] on ASCII *)
Fixpoint lower (s : string) : string :=
  match s with
  | EmptyString => EmptyString
  | String c s' => String (lower_char c) (lower s')
  end.

(** [s.lstrip(c)] for a one-character argument: every leading [c] goes. *)
Fixpoint lstrip (c : ascii) (s : string) : string :=
  match s with
  | EmptyString => EmptyString
  | String d s' => if Ascii.eqb d c then lstrip c s' else s
  end.

(** [s.startswith(c)] for a one-character argument. *)
Definition startswith (c : ascii) (s : string) : bool :=
  match s with
  | EmptyString => false
  | String d _ => Ascii.eqb d c
  end.

(** [s[1:]] *)
Definition tail (s : string) : string :=
  match s with
  | EmptyString => EmptyString
  | String _ s' => s'
  end.

(** [s.split()]: the maximal runs of characters that are not white space.
    [split_aux] returns the word that is still open at the front of [s] and
    the words after it. *)
Fixpoint split_aux (s : string) : string * list string :=
  match s with
  | EmptyString => (EmptyString, [])
  | String c s' =>
      let '(w, ws) := split_aux s' in
      if isspace c
      then (EmptyString, match w with EmptyString => ws | _ => w :: ws end)
      else (String c w, ws)
  end.

Definition split (s : string) : list string :=
  let '(w, ws) := split_aux s in
  match w with EmptyString => ws | _ => w :: ws end.

(** [s.title()] on ASCII: a letter is upper-cased when it starts a run of
    letters and lower-cased inside one. *)
Fixpoint title_go (prev_cased : bool) (s : string) : string :=
  match s with
  | EmptyString => EmptyString
  | String c s' =>
      if iscased c
      then String (if prev_cased then lower_char c else upper_char c)
                  (title_go true s')
      else String c (title_go false s')
  end.

Definition title (s : string) : string := title_go false s.

(** [s.replace(old, new)] for a one-character [old]. *)
Fixpoint replace (old : ascii) (new : string) (s : string) : string :=
  match s with
  | EmptyString => EmptyString
  | String c s' =>
      if Ascii.eqb c old then new +:+ replace old new s'
      else String c (replace old new s')
  end.

(** [x in l] for a list of strings. *)
Definition contains (x : string) (l : list string) : bool :=
  existsb (String.eqb x) l.

(** [str(n)] for an integer. *)
Definition str (n : Z) : string := NilZero.string_of_int (Z.to_int n).

(** ["%02d" % n] for [0 <= n]. *)
Definition two_digits (n : Z) : string :=
  if n <? 10 then "0" +:+ str n else str n.

Definition digit_value (c : ascii) : Z := Z.of_N (code c) - 48.

(** The white space [int] skips before and after a numeral, C's [isspace]:
    TAB, LF, VT, FF, CR and SP, and not the separators FS, GS, RS, US that
    [str.isspace] counts as well. *)
Definition isspace_c (c : ascii) : bool :=
  let n := code c in ((9 <=? n) && (n <=? 13) || (n =? 32))%N.

Fixpoint lstrip_space (s : string) : string :=
  match s with
  | EmptyString => EmptyString
  | String c s' => if isspace_c c then lstrip_space s' else s
  end.

Fixpoint rstrip_space (s : string) : string :=
  match s with
  | EmptyString => EmptyString
  | String c s' =>
      match rstrip_space s' with
      | EmptyString => if isspace_c c then EmptyString else String c EmptyString
      | t => String c t
      end
  end.

(** The numeral of [int(s)] without the white space around it. *)
Definition strip (s : string) : string := rstrip_space (lstrip_space s).

(** The digits of an integer literal: digits with single underscores
    between them. [after_digit] says that the previous character was one. *)
Fixpoint digits (acc : Z) (after_digit : bool) (s : string) : option Z :=
  match s with
  | EmptyString => if after_digit then Some acc else None
  | String c s' =>
      if isdigit c then digits (10 * acc + digit_value c) true s'
      else if Ascii.eqb c "_" && after_digit then
        match s' with
        | EmptyString => None
        | String d _ => if isdigit d then digits acc false s' else None
        end
      else None
  end.

(** [sys.get_int_max_str_digits()] as the interpreter starts: the longest
    numeral [int] converts, counted in digits. *)
Definition MAX_STR_DIGITS : Z := 4300.

(** The digits of a string, without its underscores. *)
Fixpoint count_digits (s : string) : Z :=
  match s with
  | EmptyString => 0
  | String c s' => (if isdigit c then 1 else 0) + count_digits s'
  end.

(** An integer literal without its sign; one of more than [MAX_STR_DIGITS]
    digits is refused. *)
Definition literal (t : string) : option Z :=
  match digits 0 false t with
  | Some v => if count_digits t >? MAX_STR_DIGITS then None else Some v
  | None => None
  end.

(** [int(s)] in base ten: [None] stands for the [ValueError] it raises, for
    a string that is no numeral and for a numeral that is too long. *)
Definition int (s : string) : option Z :=
  match strip s with
  | String "-" t => option_map Z.opp (literal t)
  | String "+" t => literal t
  | t => literal t
  end.

End Py.

(** ** The clock and the random generator

    The module-level generator of [random] and the system clock are the only
    state the services touch. A [World] holds the outcomes still to come: the
    values that decide the draws of the generator and the readings
    [datetime.now()] will return (seconds since 0001-01-01 00:00, local
    time), with a cursor into each. An entry of the stream decides one draw
    of [_randbelow], however many words the generator consumes for it; every
    sequence of outcomes the real generator can produce, whatever its seed,
    is one such stream. *)

Record World : Type := mkWorld {
  randoms : nat -> N;
  clock : nat -> Z;
  drawn : nat;
  ticked : nat
}.

Definition M (A : Type) : Type := World -> result A * World.

Definition ret {A} (a : A) : M A := fun w => (Ok a, w).

Definition raise {A} (e : exn) : M A := fun w => (Err e, w).

Definition bind {A B} (m : M A) (k : A -> M B) : M B :=
  fun w =>
    match m w with
    | (Ok a, w') => k a w'
    | (Err e, w') => (Err e, w')
    end.

Notation "'let*' x ':=' m 'in' k" := (bind m (fun x => k))
  (at level 10, x name, m at level 100, k at level 200).

(** [for i in range(start, start + count): acc.append(body(i))] *)
Fixpoint for_range {A} (body : Z -> M A) (start : Z) (count : nat) : M (list A) :=
  match count with
  | O => ret []
  | S count' =>
      let* x := body start in
      let* xs := for_range body (start + 1) count' in
      ret (x :: xs)
  end.

(** [range(limit)] runs [max(limit, 0)] times. *)
Definition for_in_range {A} (limit : Z) (body : Z -> M A) : M (list A) :=
  for_range body 0 (Z.to_nat limit).

Module random.

(** [Random._randbelow(n)], for [n > 0]: a number below [n], here the next
    entry of the stream brought below [n]. *)
Definition _randbelow (n : Z) : M Z :=
  fun w =>
    (Ok (Z.of_N (randoms w (drawn w)) mod n),
     mkWorld (randoms w) (clock w) (S (drawn w)) (ticked w)).

(** [random.choice(seq)]: [seq[_randbelow(len(seq))]]. *)
Definition choice {A} (seq : list A) : M A :=
  match seq with
  | [] => raise (IndexError "Cannot choose from an empty sequence")
  | _ =>
      let* i := _randbelow (Z.of_nat (length seq)) in
      match seq !! Z.to_nat i with
      | Some x => ret x
      | None => raise (IndexError "list index out of range")
      end
  end.

(** [random.randint(a, b)]: [a + _randbelow(b - a + 1)]. *)
Definition randint (a b : Z) : M Z :=
  if b - a + 1 <=? 0 then raise (ValueError "empty range for randrange()")
  else
    let* k := _randbelow (b - a + 1) in
    ret (a + k).

End random.

(** ** [datetime]: the fields the code reads, and the display format *)

Record datetime : Type := mkDatetime {
  year : Z;
  month : Z;
  day : Z;
  hour : Z;
  minute : Z;
  second : Z;
  microsecond : Z;
  utcoffset : option Z
}.

Module Datetime.

Definition is_leap (y : Z) : bool :=
  (y mod 4 =? 0) && (negb (y mod 100 =? 0) || (y mod 400 =? 0)).

Definition _DAYS_IN_MONTH (m : Z) : Z :=
  match m with
  | 1 => 31 | 2 => 28 | 3 => 31 | 4 => 30 | 5 => 31 | 6 => 30
  | 7 => 31 | 8 => 31 | 9 => 30 | 10 => 31 | 11 => 30 | 12 => 31
  | _ => 0
  end.

Definition _DAYS_BEFORE_MONTH (m : Z) : Z :=
  match m with
  | 1 => 0 | 2 => 31 | 3 => 59 | 4 => 90 | 5 => 120 | 6 => 151
  | 7 => 181 | 8 => 212 | 9 => 243 | 10 => 273 | 11 => 304 | 12 => 334
  | _ => 0
  end.

Definition days_in_month (y m : Z) : Z :=
  if (m =? 2) && is_leap y then 29 else _DAYS_IN_MONTH m.

Definition b2z (b : bool) : Z := if b then 1 else 0.

(** [_ord2ymd(n)]: the proleptic Gregorian date of day number [n], day 1
    being 0001-01-01. *)
Definition _ord2ymd (n : Z) : Z * Z * Z :=
  let n := n - 1 in
  let n400 := n / 146097 in
  let n := n mod 146097 in
  let n100 := n / 36524 in
  let n := n mod 36524 in
  let n4 := n / 1461 in
  let n := n mod 1461 in
  let n1 := n / 365 in
  let n := n mod 365 in
  let y := n400 * 400 + 1 + n100 * 100 + n4 * 4 + n1 in
  if (n1 =? 4) || (n100 =? 4) then (y - 1, 12, 31)
  else
    let leapyear := (n1 =? 3) && (negb (n4 =? 24) || (n100 =? 3)) in
    let m := Z.shiftr (n + 50) 5 in
    let preceding := _DAYS_BEFORE_MONTH m + b2z ((m >? 2) && leapyear) in
    if preceding >? n
    then
      let m' := m - 1 in
      let preceding' :=
        preceding - (_DAYS_IN_MONTH m' + b2z ((m' =? 2) && leapyear)) in
      (y, m', n - preceding' + 1)
    else (y, m, n - preceding + 1).

(** Seconds from 0001-01-01 00:00 to the end of 9999-12-31. *)
Definition MAX_SECONDS : Z := 3652059 * 86400.

(** The naive datetime [t] seconds after 0001-01-01 00:00. *)
Definition of_seconds (t : Z) : datetime :=
  let '(y, m, d) := _ord2ymd (t / 86400 + 1) in
  let s := t mod 86400 in
  mkDatetime y m d (s / 3600) (s mod 3600 / 60) (s mod 60) 0 None.

Definition month_abbr (m : Z) : string :=
  match m with
  | 1 => "Jan" | 2 => "Feb" | 3 => "Mar" | 4 => "Apr" | 5 => "May"
  | 6 => "Jun" | 7 => "Jul" | 8 => "Aug" | 9 => "Sep" | 10 => "Oct"
  | 11 => "Nov" | 12 => "Dec" | _ => ""
  end.

(** [%-I]: the hour on the 12-hour clock, not padded. *)
Definition hour12 (dt : datetime) : string :=
  Py.str (if hour dt mod 12 =? 0 then 12 else hour dt mod 12).

(** [%M]: the minute, two digits. *)
Definition minute2 (dt : datetime) : string := Py.two_digits (minute dt).

(** [%p] *)
Definition ampm (dt : datetime) : string :=
  if hour dt <? 12 then "AM" else "PM".

(** [dt.strftime("%-I:%M %p - %-d %b %Y")], with the conventions of glibc
    and the C locale. *)
Definition strftime_display (dt : datetime) : string :=
  hour12 dt +:+ ":" +:+ minute2 dt +:+ " " +:+ ampm dt +:+ " - " +:+
  Py.str (day dt) +:+ " " +:+ month_abbr (month dt) +:+ " " +:+
  Py.str (year dt).

(** [datetime.now()] *)
Definition now : M Z :=
  fun w =>
    (Ok (clock w (ticked w)),
     mkWorld (randoms w) (clock w) (drawn w) (S (ticked w))).

End Datetime.

(** ** [app/models/tweet.py] *)

Record Account : Type := mkAccount {
  fullname : string;
  href : string;
  id : Z
}.

Record Tweet : Type := mkTweet {
  account : Account;
  date : string;
  text : string;
  replies : Z;
  retweets : Z;
  likes : Z;
  hashtags : list string
}.

(** ** [config.py] *)

Module Config.
Definition DEFAULT_TWEET_LIMIT : Z := 30.
Definition MAX_TWEET_LIMIT : Z := 100.
Definition MIN_TWEET_LIMIT : Z := 1.
End Config.

(** ** [app/utils/validators.py] *)

Module validators.

(** [validate_limit(limit_str, default=None)]; [None] is Python's [None]. *)
Definition validate_limit (limit_str : option string) (default : option Z)
  : result Z :=
  let default :=
    match default with
    | None => Config.DEFAULT_TWEET_LIMIT
    | Some d => d
    end in
  match limit_str with
  | None => Ok default
  | Some s =>
      match Py.int s with
      | None =>
          Err (ValueError
                 ("Invalid limit value: " +:+ s +:+ ". Must be an integer."))
      | Some limit =>
          let min_limit := Config.MIN_TWEET_LIMIT in
          let max_limit := Config.MAX_TWEET_LIMIT in
          if limit <? min_limit then
            Err (ValueError ("Limit must be at least " +:+ Py.str min_limit))
          else if limit >? max_limit then
            Err (ValueError ("Limit cannot exceed " +:+ Py.str max_limit))
          else Ok limit
      end
  end.

End validators.


(** ** [app/services/twitter_mock_service.py] *)

Module TwitterMockService.

Definition SAMPLE_ACCOUNTS : list Account := [
  mkAccount "Raymond Hettinger" "/raymondh" 14159138;
  mkAccount "Guido van Rossum" "/gvanrossum" 10945672;
  mkAccount "Python Software" "/ThePSF" 63873759;
  mkAccount "Real Python" "/realpython" 752486881;
  mkAccount "Python Weekly" "/PythonWeekly" 315766685;
  mkAccount "Twitter" "/Twitter" 783214;
  mkAccount "Tech News" "/technews" 123456789;
  mkAccount "Code Academy" "/codeacademy" 987654321
].

(** The double quote and the line feed, by their codes. *)
Definition dq : string := String "034"%char EmptyString.
Definition nl : string := String "010"%char EmptyString.

Definition SAMPLE_TEXTS : list string := [
  "Just released a new #Python library for data processing! Check it out: github.com/example";
  "Historically, bash filename pattern matching was known as " +:+ dq +:+
    "globbing" +:+ dq +:+ ". Hence, the #python module called " +:+ dq +:+
    "glob" +:+ dq +:+ ".";
  "Excited to announce our new feature! #technology #innovation";
  "Working on some amazing #Python projects today. The productivity is real!";
  "Powerful voices. Inspiring women. #InternationalWomensDay";
  "New blog post about #programming best practices. Link in bio!";
  "Just deployed our latest microservice using #Python 3.12. Performance improvements are incredible!";
  "Anyone else loving the new features in Python 3.13? #python #coding";
  "Great conference talk today about #softwaredevelopment and #agile methodologies";
  "Remember: premature optimization is the root of all evil. #programming #python"
].

(** [_generate_date(index)]: [index * 0.5] days is [index] times twelve hours;
    the subtraction raises [OverflowError] when the result leaves the years
    1..9999. *)
Definition _generate_date (index : Z) : M string :=
  let* now := Datetime.now in
  let tweet_time := now - index * 43200 in
  if (tweet_time <? 0) || (Datetime.MAX_SECONDS <=? tweet_time)
  then raise (OverflowError "date value out of range")
  else ret (Datetime.strftime_display (Datetime.of_seconds tweet_time)).

(** [hashtag.lstrip('#').lower()] *)
Definition normalize_hashtag (hashtag : string) : string :=
  Py.lower (Py.lstrip "#" hashtag).

(** [username.lstrip('@')] *)
Definition normalize_username (username : string) : string :=
  Py.lstrip "@" username.

(** [[word[1:].lower() for word in base_text.split() if word.startswith('#')]] *)
Definition existing_hashtags_of (base_text : string) : list string :=
  map (fun word => Py.lower (Py.tail word))
      (List.filter (Py.startswith "#") (Py.split base_text)).

(** The body of the loop of [get_tweets_by_hashtag]. *)
Definition hashtag_tweet (hashtag : string) (i : Z) : M Tweet :=
  let* account := random.choice SAMPLE_ACCOUNTS in
  let* base_text := random.choice SAMPLE_TEXTS in
  let existing_hashtags := existing_hashtags_of base_text in
  let '(existing_hashtags, base_text) :=
    if negb (Py.contains hashtag existing_hashtags)
    then (hashtag :: existing_hashtags, base_text +:+ nl +:+ "#" +:+ hashtag)
    else (existing_hashtags, base_text) in
  let* date := _generate_date i in
  let* replies := random.randint 0 500 in
  let* retweets := random.randint 0 1000 in
  let* likes := random.randint 0 5000 in
  ret (mkTweet account date base_text replies retweets likes
         (map (fun tag => "#" +:+ tag) existing_hashtags)).

Definition get_tweets_by_hashtag (hashtag : string) (limit : Z) : M (list Tweet) :=
  match hashtag with
  | EmptyString => raise (ValueError "Hashtag cannot be empty")
  | _ =>
      let hashtag := normalize_hashtag hashtag in
      for_in_range limit (hashtag_tweet hashtag)
  end.

(** [next((acc for acc in SAMPLE_ACCOUNTS if ...), None)] *)
Definition matching_account (username : string) : option Account :=
  List.find
    (fun acc => String.eqb (Py.lower (Py.lstrip "/" (href acc))) (Py.lower username))
    SAMPLE_ACCOUNTS.

(** The account of [get_user_tweets], resolved before the loop. *)
Definition resolve_account (username : string) : M Account :=
  match matching_account username with
  | Some acc => ret acc
  | None =>
      let* id := random.randint 1000000 99999999 in
      ret (mkAccount (Py.title username) ("/" +:+ username) id)
  end.

(** The body of the loop of [get_user_tweets]. *)
Definition user_tweet (account : Account) (i : Z) : M Tweet :=
  let* base_text := random.choice SAMPLE_TEXTS in
  let hashtags := List.filter (Py.startswith "#") (Py.split base_text) in
  let* date := _generate_date i in
  let* replies := random.randint 0 500 in
  let* retweets := random.randint 0 1000 in
  let* likes := random.randint 0 5000 in
  ret (mkTweet account date base_text replies retweets likes hashtags).

Definition get_user_tweets (username : string) (limit : Z) : M (list Tweet) :=
  match username with
  | EmptyString => raise (ValueError "Username cannot be empty")
  | _ =>
      let username := normalize_username username in
      let* account := resolve_account username in
      for_in_range limit (user_tweet account)
  end.

End TwitterMockService.


(** ** [datetime.fromisoformat]

    The documented grammar of the strings [isoformat()] emits,
    [YYYY-MM-DD[*HH[:MM[:SS[.fff[fff]]]][+HH:MM[:SS[.ffffff]]]]] with [*] any
    one character, followed by the range checks of the constructors; every
    failure is a [ValueError]. Python 3.11 and later accept further ISO
    spellings; [_format_date] treats whatever is accepted alike. *)

Module Iso.

(** Exactly [n] decimal digits at the front of [s]. *)
Fixpoint take_digits (n : nat) (acc : Z) (s : string) : option (Z * string) :=
  match n with
  | O => Some (acc, s)
  | S n' =>
      match s with
      | String c s' =>
          if Py.isdigit c then take_digits n' (10 * acc + Py.digit_value c) s'
          else None
      | EmptyString => None
      end
  end.

Definition expect (c : ascii) (s : string) : option string :=
  match s with
  | String d s' => if Ascii.eqb d c then Some s' else None
  | EmptyString => None
  end.

(** [.fff] or [.ffffff], to the end of the string, in microseconds. *)
Definition parse_fraction (s : string) : option Z :=
  match String.length s with
  | 3%nat =>
      match take_digits 3 0 s with
      | Some (f, EmptyString) => Some (f * 1000)
      | _ => None
      end
  | 6%nat =>
      match take_digits 6 0 s with
      | Some (f, EmptyString) => Some f
      | _ => None
      end
  | _ => None
  end.

(** [HH[:MM[:SS[.fff[fff]]]]], to the end of the string. *)
Definition parse_hh_mm_ss_ff (s : string) : option (Z * Z * Z * Z) :=
  match take_digits 2 0 s with
  | None => None
  | Some (h, EmptyString) => Some (h, 0, 0, 0)
  | Some (h, String c r) =>
      if negb (Ascii.eqb c ":") then None else
      match take_digits 2 0 r with
      | None => None
      | Some (mi, EmptyString) => Some (h, mi, 0, 0)
      | Some (mi, String c r) =>
          if negb (Ascii.eqb c ":") then None else
          match take_digits 2 0 r with
          | None => None
          | Some (sec, EmptyString) => Some (h, mi, sec, 0)
          | Some (sec, String c r) =>
              if negb (Ascii.eqb c ".") then None else
              match parse_fraction r with
              | Some us => Some (h, mi, sec, us)
              | None => None
              end
          end
      end
  end.

(** The time string cut at its first [+] or [-]: the time, and the sign and
    text of the zone when there is one. *)
Fixpoint cut_zone (s : string) : string * option (Z * string) :=
  match s with
  | EmptyString => (EmptyString, None)
  | String c s' =>
      if Ascii.eqb c "+" then (EmptyString, Some (1, s'))
      else if Ascii.eqb c "-" then (EmptyString, Some (-1, s'))
      else let '(t, z) := cut_zone s' in (String c t, z)
  end.

(** The zone [HH:MM[:SS[.ffffff]]] as an offset in microseconds, strictly
    within a day. *)
Definition parse_zone (sign : Z) (s : string) : option Z :=
  let n := String.length s in
  if negb (Nat.eqb n 5 || Nat.eqb n 8 || Nat.eqb n 15) then None else
  match parse_hh_mm_ss_ff s with
  | Some (h, mi, sec, us) =>
      let off := sign * ((h * 3600 + mi * 60 + sec) * 1000000 + us) in
      if (-86400000000 <? off) && (off <? 86400000000) then Some off else None
  | None => None
  end.

Definition valid_date (y m d : Z) : bool :=
  (1 <=? y) && (y <=? 9999) && (1 <=? m) && (m <=? 12) &&
  (1 <=? d) && (d <=? Datetime.days_in_month y m).

Definition valid_time (h mi sec : Z) : bool :=
  (h <=? 23) && (mi <=? 59) && (sec <=? 59).

Definition parse (s : string) : option datetime :=
  match take_digits 4 0 s with
  | None => None
  | Some (y, s) =>
  match expect "-" s with
  | None => None
  | Some s =>
  match take_digits 2 0 s with
  | None => None
  | Some (m, s) =>
  match expect "-" s with
  | None => None
  | Some s =>
  match take_digits 2 0 s with
  | None => None
  | Some (d, s) =>
      if negb (valid_date y m d) then None else
      match s with
      | EmptyString => Some (mkDatetime y m d 0 0 0 0 None)
      | String _ tstr =>
          let '(t, z) := cut_zone tstr in
          match parse_hh_mm_ss_ff t with
          | None => None
          | Some (h, mi, sec, us) =>
              if negb (valid_time h mi sec) then None else
              match z with
              | None => Some (mkDatetime y m d h mi sec us None)
              | Some (sign, zstr) =>
                  match parse_zone sign zstr with
                  | Some off => Some (mkDatetime y m d h mi sec us (Some off))
                  | None => None
                  end
              end
          end
      end
  end end end end end.

(** [datetime.fromisoformat(date_string)] *)
Definition fromisoformat (date_string : string) : result datetime :=
  match parse date_string with
  | Some dt => Ok dt
  | None => Err (ValueError ("Invalid isoformat string: " +:+ date_string))
  end.

End Iso.


(** ** [app/services/twitter_api_service.py] *)

(** The JSON the X API v2 returns, typed by its schema; a key the code reads
    with [.get] or tests with [in] is an [option] field. *)

Record public_metrics : Type := mkMetrics {
  reply_count : option Z;
  retweet_count : option Z;
  like_count : option Z
}.

Record tweet_data : Type := mkTweetData {
  td_author_id : option string;
  td_text : option string;
  td_created_at : option string;
  td_public_metrics : option public_metrics
}.

Record user_data : Type := mkUser {
  user_id : option string;
  user_name : option string;
  user_username : option string
}.

Record includes : Type := mkIncludes {
  inc_users : option (list user_data)
}.

Record tweets_payload : Type := mkPayload {
  p_data : option (list tweet_data);
  p_includes : option includes
}.

Record user_payload : Type := mkUserPayload {
  up_data : option user_data
}.

(** What [requests.get] does: raise a [RequestException] (a failure of the
    network), or return a response with a status code and a body, [None] when
    the body is not JSON. *)
Inductive http_outcome (A : Type) : Type :=
  | RequestException (msg : string)
  | Response (status_code : Z) (json : option A).
Arguments RequestException {A} msg.
Arguments Response {A} status_code json.

(** The three endpoints of the upstream API the service calls. *)
Record Upstream : Type := mkUpstream {
  search_recent : string -> Z -> http_outcome tweets_payload;
  user_by_username : string -> http_outcome user_payload;
  user_tweets : string -> Z -> http_outcome tweets_payload
}.

(** [for x in xs: acc.append(f(x))], stopping at the first exception. *)
Fixpoint traverse {A B} (f : A -> result B) (xs : list A) : result (list B) :=
  match xs with
  | [] => Ok []
  | x :: xs' =>
      rbind (f x) (fun y => rbind (traverse f xs') (fun ys => Ok (y :: ys)))
  end.

Module TwitterAPIService.

(** [_format_date(iso_date)] *)
Definition _format_date (iso_date : string) : result string :=
  match Iso.fromisoformat (Py.replace "Z" "+00:00" iso_date) with
  | Ok dt => Ok (Datetime.strftime_display dt)
  | Err (ValueError _) => Ok iso_date
  | Err (AttributeError _) => Ok iso_date
  | Err e => Err e
  end.

(** [users[user['id']] = user], for each user of the expansion in turn. *)
Definition add_user (users : result (gmap string user_data)) (user : user_data)
  : result (gmap string user_data) :=
  rbind users (fun users =>
    match user_id user with
    | Some uid => Ok (<[uid := user]> users)
    | None => Err (KeyError "id")
    end).

Definition build_users (data : tweets_payload) : result (gmap string user_data) :=
  match p_includes data with
  | Some inc =>
      match inc_users inc with
      | Some us => fold_left add_user us (Ok ∅)
      | None => Ok ∅
      end
  | None => Ok ∅
  end.

(** [users.get(author_id, {})]; the empty dictionary has no key. *)
Definition author_info_of (users : gmap string user_data)
  (author_id : option string) : user_data :=
  let found := match author_id with
               | Some a => users !! a
               | None => None
               end in
  match found with
  | Some u => u
  | None => mkUser None None None
  end.

(** [int(author_id) if author_id else 0]; the text of the [ValueError] of
    [int] is abbreviated. *)
Definition account_id (author_id : option string) : result Z :=
  match author_id with
  | None => Ok 0
  | Some EmptyString => Ok 0
  | Some a =>
      match Py.int a with
      | Some n => Ok n
      | None =>
          Err (ValueError ("invalid literal for int() with base 10: " +:+ a))
      end
  end.

Definition get {A} (field : option A) (default : A) : A :=
  match field with Some v => v | None => default end.

(** The body of the loop of [_parse_tweets_response]. *)
Definition parse_tweet (users : gmap string user_data) (td : tweet_data)
  : result Tweet :=
  let author_id := td_author_id td in
  let author_info := author_info_of users author_id in
  rbind (account_id author_id) (fun aid =>
    let account :=
      mkAccount (get (user_name author_info) "Unknown")
                ("/" +:+ get (user_username author_info) "unknown")
                aid in
    let metrics := get (td_public_metrics td) (mkMetrics None None None) in
    let text := get (td_text td) EmptyString in
    let hashtags := List.filter (Py.startswith "#") (Py.split text) in
    let created_at := get (td_created_at td) EmptyString in
    rbind (_format_date created_at) (fun formatted_date =>
      Ok (mkTweet account formatted_date text
            (get (reply_count metrics) 0)
            (get (retweet_count metrics) 0)
            (get (like_count metrics) 0)
            hashtags))).

Definition _parse_tweets_response (data : tweets_payload) : result (list Tweet) :=
  match p_data data with
  | None => Ok []
  | Some items =>
      rbind (build_users data) (fun users => traverse (parse_tweet users) items)
  end.

(** [_handle_api_errors(response)] *)
Definition _handle_api_errors (status_code : Z) : result unit :=
  if status_code =? 429 then
    Err (RuntimeError "Rate limit exceeded. Please wait before making more requests.")
  else if status_code =? 401 then
    Err (RuntimeError "Authentication failed. Please check your Bearer Token.")
  else if status_code =? 403 then
    Err (RuntimeError "Access forbidden. This may require a higher API access tier.")
  else Ok tt.

(** The same three checks as [get_tweets_by_hashtag] writes them out. *)
Definition search_status_errors (status_code : Z) : result unit :=
  if status_code =? 429 then
    Err (RuntimeError
           ("Rate limit exceeded. Please wait before making more requests. " +:+
            "Consider upgrading your X API access tier."))
  else if status_code =? 401 then
    Err (RuntimeError
           ("Authentication failed. Please check your Bearer Token. " +:+
            "Get your token at https://developer.x.com"))
  else if status_code =? 403 then
    Err (RuntimeError
           ("Access forbidden. This endpoint may require a higher API access tier. " +:+
            "Free tier has limited access. Consider upgrading at https://developer.x.com"))
  else Ok tt.

(** One call inside the [try] block: the status checks, [raise_for_status()]
    and [response.json()]. A [RequestException] (no connection, a 4xx or 5xx
    status, a body that is not JSON) is re-raised as a [RuntimeError] by the
    handler; its text is abbreviated here. *)
Definition receive {A} (status_errors : Z -> result unit) (r : http_outcome A)
  : result A :=
  match r with
  | RequestException msg => Err (RuntimeError ("API request failed: " +:+ msg))
  | Response status_code json =>
      rbind (status_errors status_code) (fun _ =>
        if (400 <=? status_code) && (status_code <? 600) then
          Err (RuntimeError ("API request failed: " +:+ Py.str status_code +:+ " Error"))
        else
          match json with
          | Some body => Ok body
          | None => Err (RuntimeError "API request failed: invalid JSON")
          end)
  end.

(** [hashtag.lstrip('#')] *)
Definition normalize_hashtag (hashtag : string) : string := Py.lstrip "#" hashtag.

(** [username.lstrip('@')] *)
Definition normalize_username (username : string) : string := Py.lstrip "@" username.

Definition get_tweets_by_hashtag (api : Upstream) (hashtag : string) (limit : Z)
  : result (list Tweet) :=
  match hashtag with
  | EmptyString => Err (ValueError "Hashtag cannot be empty")
  | _ =>
      let hashtag := normalize_hashtag hashtag in
      let query := "#" +:+ hashtag in
      let max_results := Z.min limit 100 in
      rbind (receive search_status_errors (search_recent api query max_results))
            _parse_tweets_response
  end.

Definition get_user_tweets (api : Upstream) (username : string) (limit : Z)
  : result (list Tweet) :=
  match username with
  | EmptyString => Err (ValueError "Username cannot be empty")
  | _ =>
      let username := normalize_username username in
      rbind (receive _handle_api_errors (user_by_username api username)) (fun user_data =>
        match up_data user_data with
        | None => Err (RuntimeError ("User '" +:+ username +:+ "' not found"))
        | Some user =>
            match user_id user with
            | None => Err (KeyError "id")
            | Some uid =>
                let max_results := Z.min limit 100 in
                rbind (receive _handle_api_errors (user_tweets api uid max_results))
                  (fun tweets_data =>
                     let tweets_data :=
                       match p_data tweets_data with
                       | Some _ =>
                           mkPayload (p_data tweets_data)
                                     (Some (mkIncludes (Some [user])))
                       | None => tweets_data
                       end in
                     _parse_tweets_response tweets_data)
            end
        end)
  end.

End TwitterAPIService.


(** ** [app/models/tweet.py]: serialization *)

(** A JSON value; an object keeps its keys in insertion order, as a Python
    dictionary does. *)
#[warnings="-register-all"]
Inductive json : Type :=
  | JInt (n : Z)
  | JStr (s : string)
  | JList (items : list json)
  | JDict (fields : list (string * json)).

(** [Account.to_dict()]: [asdict(self)]. *)
Definition Account_to_dict (a : Account) : json :=
  JDict [("fullname", JStr (fullname a)); ("href", JStr (href a));
         ("id", JInt (id a))].

(** [Tweet.to_dict()] *)
Definition Tweet_to_dict (t : Tweet) : json :=
  JDict [("account", Account_to_dict (account t));
         ("date", JStr (date t));
         ("text", JStr (text t));
         ("replies", JInt (replies t));
         ("retweets", JInt (retweets t));
         ("likes", JInt (likes t));
         ("hashtags", JList (map JStr (hashtags t)))].

(** [d[key]] on a JSON object: the first field with that key. *)
Fixpoint json_get (key : string) (fields : list (string * json)) : option json :=
  match fields with
  | [] => None
  | (k, v) :: rest => if String.eqb k key then Some v else json_get key rest
  end.

(** ** [app/services/__init__.py] and the constructors of the services *)

Module Services.

(** The truth value of an optional string: [None] and the empty string are
    false. *)
Definition truthy (s : option string) : bool :=
  match s with
  | Some (String _ _) => true
  | _ => false
  end.

(** [a or b] *)
Definition or_else (a b : option string) : option string :=
  if truthy a then a else b.

(** An instance of [TwitterAPIService]: its token and its headers. *)
Record api_service : Type := mkApiService {
  bearer_token : string;
  headers : list (string * string)
}.

(** [TwitterAPIService.__init__(bearer_token)]; [env] is the value of
    [TWITTER_BEARER_TOKEN] in the environment, [None] when it is not set. *)
Definition TwitterAPIService_init (token env : option string) : result api_service :=
  match or_else token env with
  | Some (String c t) =>
      Ok (mkApiService (String c t)
            [("Authorization", "Bearer " +:+ String c t);
             ("Content-Type", "application/json")])
  | _ =>
      Err (ValueError
             ("Twitter API Bearer Token is required. " +:+
              "Set TWITTER_BEARER_TOKEN environment variable or pass bearer_token parameter. " +:+
              "Get your token at https://developer.x.com"))
  end.

(** [TwitterMockService.__init__()]: [random.seed(42)] puts the generator at
    the start of the stream [seeded] that belongs to the seed 42. *)
Definition TwitterMockService_init (seeded : nat -> N) : M unit :=
  fun w => (Ok tt, mkWorld seeded (clock w) 0 (ticked w)).

(** The two implementations of the abstract [TwitterService]. *)
Inductive service : Type :=
  | Mock
  | Api (instance : api_service).

(** [get_twitter_service()] *)
Definition get_twitter_service (seeded : nat -> N) (env : option string)
  : M service :=
  if truthy env then
    match TwitterAPIService_init env env with
    | Ok instance => ret (Api instance)
    | Err e => raise e
    end
  else
    let* _ := TwitterMockService_init seeded in
    ret Mock.

(** The method [get_tweets_by_hashtag] of a service; [api] is the upstream
    as it answers requests that carry the headers of the instance. *)
Definition get_tweets_by_hashtag (api : Upstream) (svc : service)
  (hashtag : string) (limit : Z) : M (list Tweet) :=
  match svc with
  | Mock => TwitterMockService.get_tweets_by_hashtag hashtag limit
  | Api _ => fun w => (TwitterAPIService.get_tweets_by_hashtag api hashtag limit, w)
  end.

(** The method [get_user_tweets] of a service. *)
Definition get_user_tweets (api : Upstream) (svc : service)
  (username : string) (limit : Z) : M (list Tweet) :=
  match svc with
  | Mock => TwitterMockService.get_user_tweets username limit
  | Api _ => fun w => (TwitterAPIService.get_user_tweets api username limit, w)
  end.

End Services.

(** ** [app/routes/hashtags.py] and [app/routes/users.py]

    The bodies of the two handlers. The framework has checked before that
    [limit] is an integer between 1 and 100. *)

Inductive http_response : Type :=
  | JSONResponse (body : list json)
  | HTTPException (status_code : Z) (detail : string).

Module Routes.

(** [str(e)] *)
Definition str_exn (e : exn) : string :=
  match e with
  | ValueError msg => msg
  | RuntimeError msg => msg
  | KeyError key => "'" +:+ key +:+ "'"
  | IndexError msg => msg
  | OverflowError msg => msg
  | AttributeError msg => msg
  end.

(** The three [except] clauses of a handler. *)
Definition handle (e : exn) : http_response :=
  match e with
  | ValueError msg => HTTPException 400 msg
  | RuntimeError msg => HTTPException 500 ("Service error: " +:+ msg)
  | _ => HTTPException 500 ("Unexpected error: " +:+ str_exn e)
  end.

Definition respond (m : M (list Tweet)) : World -> http_response * World :=
  fun w =>
    match m w with
    | (Ok tweets, w') => (JSONResponse (map Tweet_to_dict tweets), w')
    | (Err e, w') => (handle e, w')
    end.

(** [GET /hashtags/{hashtag}] *)
Definition get_tweets_by_hashtag (seeded : nat -> N) (env : option string)
  (api : Upstream) (hashtag : string) (limit : Z)
  : World -> http_response * World :=
  respond
    (let* twitter_service := Services.get_twitter_service seeded env in
     Services.get_tweets_by_hashtag api twitter_service hashtag limit).

(** [GET /users/{username}] *)
Definition get_user_tweets (seeded : nat -> N) (env : option string)
  (api : Upstream) (username : string) (limit : Z)
  : World -> http_response * World :=
  respond
    (let* twitter_service := Services.get_twitter_service seeded env in
     Services.get_user_tweets api twitter_service username limit).

End Routes.

(** * Properties *)

(** ** Running a computation

    [returns m w c P]: run in [w], [m] raises nothing, returns a value that
    satisfies [P], leaves the clock and the generator's stream as they were
    and has drawn [c] random numbers. *)

Definition returns {A} (m : M A) (w : World) (c : nat) (P : A -> Prop) : Prop :=
  exists a w',
    m w = (Ok a, w') /\ clock w' = clock w /\ randoms w' = randoms w /\
    drawn w' = (drawn w + c)%nat /\ P a.

(** The clock allows a call with this limit: every reading is a datetime,
    and one from which [limit - 1] half days can be subtracted. *)
Definition clock_allows (w : World) (limit : Z) : Prop :=
  forall k, (limit - 1) * 43200 <= clock w k < Datetime.MAX_SECONDS.

(** Every reading of the clock is a datetime at least fifty days after
    0001-01-01, as any reading of a real clock is. *)
Definition valid_clock (w : World) : Prop :=
  forall k, 50 * 86400 <= clock w k < Datetime.MAX_SECONDS.

(** What [get_tweets_by_hashtag] does with the tag [key] on the sample text
    it drew: nothing when [key] is among the text's tags, and otherwise a new
    last line in the text and a new first entry in the list. *)
Definition tag_forced (key : string) (t : Tweet) : Prop :=
  exists base_text,
    In base_text TwitterMockService.SAMPLE_TEXTS /\
    let existing := TwitterMockService.existing_hashtags_of base_text in
    if Py.contains key existing
    then text t = base_text /\
         hashtags t = map (fun tag => "#" +:+ tag) existing
    else text t = base_text +:+ TwitterMockService.nl +:+ "#" +:+ key /\
         hashtags t = ("#" +:+ key) :: map (fun tag => "#" +:+ tag) existing.

(** The metrics of a generated tweet are in the ranges the code draws from. *)
Definition metrics_in_range (t : Tweet) : Prop :=
  0 <= replies t <= 500 /\ 0 <= retweets t <= 1000 /\ 0 <= likes t <= 5000.

(** The account [get_user_tweets] gives every tweet of a call: the entry of
    the pool whose [href] is the handle up to case, and otherwise a new
    account made from the handle. *)
Definition handle_matches (username : string) (acc : Account) : Prop :=
  Py.lower (Py.lstrip "/" (href acc)) = Py.lower username.

Definition resolved_account (username : string) (acct : Account) : Prop :=
  (In acct TwitterMockService.SAMPLE_ACCOUNTS /\ handle_matches username acct) \/
  ((forall acc, In acc TwitterMockService.SAMPLE_ACCOUNTS ->
                ~ handle_matches username acc) /\
   fullname acct = Py.title username /\
   href acct = "/" +:+ username /\
   1000000 <= id acct <= 99999999).

(** The random numbers [resolve_account] draws: one, for the identifier of a
    new account, and none for an account of the pool. *)
Definition resolution_draws (username : string) : nat :=
  match TwitterMockService.matching_account username with
  | Some _ => 0
  | None => 1
  end.

(** A world to run the examples in: the clock stands at 2023-03-15 14:30:05
    and the generator yields 3, 10, 17, ... *)
Definition sample_world : World :=
  mkWorld (fun k => N.of_nat (7 * k + 3)) (fun _ => 738593 * 86400 + 52205) 0 0.

(** An upstream for the examples: every endpoint answers 200 with a body
    that has no [data]. *)
Definition sample_upstream : Upstream :=
  mkUpstream (fun _ _ => Response 200 (Some (mkPayload None None)))
             (fun _ => Response 200 (Some (mkUserPayload None)))
             (fun _ _ => Response 200 (Some (mkPayload None None))).

(** [c * k]: the character [c], [k] times. *)
Fixpoint times (c : ascii) (k : nat) : string :=
  match k with
  | O => EmptyString
  | S k' => String c (times c k')
  end.

(** Key normalization as the specification words it: one leading marker is
    removed when present, and the key is otherwise left as it is. *)
Definition strip_one_marker (marker : ascii) (s : string) : string :=
  match s with
  | String c s' => if Ascii.eqb c marker then s' else s
  | EmptyString => EmptyString
  end.

(** The limit validator as the specification words it. *)
Inductive limit_outcome (raw : option string) (default : Z) : result Z -> Prop :=
  | limit_absent :
      raw = None -> limit_outcome raw default (Ok default)
  | limit_not_an_integer s msg :
      raw = Some s -> Py.int s = None ->
      limit_outcome raw default (Err (ValueError msg))
  | limit_below_minimum s v msg :
      raw = Some s -> Py.int s = Some v -> v < 1 ->
      limit_outcome raw default (Err (ValueError msg))
  | limit_above_maximum s v msg :
      raw = Some s -> Py.int s = Some v -> 100 < v ->
      limit_outcome raw default (Err (ValueError msg))
  | limit_in_range s v :
      raw = Some s -> Py.int s = Some v -> 1 <= v <= 100 ->
      limit_outcome raw default (Ok v).

(** The payload of the unit test of [_parse_tweets_response]: one item and
    its author. The date and the metrics of the item and the [username] of the
    author are left open. *)
Definition test_response (created_at username : option string)
  (metrics : option public_metrics) : tweets_payload :=
  mkPayload
    (Some [mkTweetData (Some "987654321") (Some "This is a test tweet #python")
                       created_at metrics])
    (Some (mkIncludes
             (Some [mkUser (Some "987654321") (Some "Test User") username]))).

(** A count of the payload, 0 when the metrics or the field are absent. *)
Definition count_of (field : public_metrics -> option Z)
  (metrics : option public_metrics) : Z :=
  match metrics with
  | Some m => match field m with Some v => v | None => 0 end
  | None => 0
  end.

Definition MONTH_NAMES : list string :=
  ["Jan"; "Feb"; "Mar"; "Apr"; "May"; "Jun";
   "Jul"; "Aug"; "Sep"; "Oct"; "Nov"; "Dec"].

(** The display format [H:MM AM/PM - D Mon YYYY]: hour 1..12 and day 1..31
    without padding, minute on two digits. *)
Definition display_format (out : string) : Prop :=
  exists H M p D mon Y,
    out = Py.str H +:+ ":" +:+ Py.two_digits M +:+ " " +:+ p +:+ " - " +:+
          Py.str D +:+ " " +:+ mon +:+ " " +:+ Py.str Y /\
    1 <= H <= 12 /\ 0 <= M <= 59 /\ (p = "AM" \/ p = "PM") /\
    1 <= D <= 31 /\ In mon MONTH_NAMES /\ 1 <= Y <= 9999.

(** The fields the display format reads are those of a date and a time. *)
Definition valid_datetime (dt : datetime) : Prop :=
  1 <= year dt <= 9999 /\ 1 <= month dt <= 12 /\ 1 <= day dt <= 31 /\
  0 <= hour dt <= 23 /\ 0 <= minute dt <= 59.

(** No character of the string is white space. *)
Fixpoint no_space (s : string) : bool :=
  match s with
  | EmptyString => true
  | String c s' => negb (Py.isspace c) && no_space s'
  end.

(** A hashtag in lower case: [#] and a string that [lower] leaves alone. *)
Definition lowercase_hashtag (h : string) : Prop :=
  exists tag, h = "#" +:+ tag /\ Py.lower tag = tag.

(** A word of a text, as [split] cuts it, that begins with [#]. *)
Definition hash_token_of (text h : string) : Prop :=
  In h (Py.split text) /\ Py.startswith "#" h = true /\ no_space h = true.

(** The users of the expansion block of a payload, none when it has none. *)
Definition users_of (data : tweets_payload) : list user_data :=
  match p_includes data with
  | Some inc => match inc_users inc with Some us => us | None => [] end
  | None => []
  end.

(** Every user of the expansion has an [id]. *)
Definition users_have_ids (data : tweets_payload) : bool :=
  forallb (fun u => match user_id u with Some _ => true | None => false end)
          (users_of data).

(** The [author_id] of an item can be turned into an account id: it is
    absent, empty, or an integer numeral. *)
Definition author_id_ok (td : tweet_data) : bool :=
  match td_author_id td with
  | None => true
  | Some EmptyString => true
  | Some a => match Py.int a with Some _ => true | None => false end
  end.

(** The last user of a list with a given [id]. *)
Definition last_with_id (us : list user_data) (a : string) : option user_data :=
  List.find (fun u => match user_id u with
                      | Some i => String.eqb i a
                      | None => false
                      end)
            (rev us).

(** The account the code falls back on for an author it does not know. *)
Definition unknown_author (t : Tweet) : Prop :=
  fullname (account t) = "Unknown" /\ href (account t) = "/unknown".

(** A call of the upstream that gives the service nothing to parse: no
    connection, a status from 400 to 599, or a body that is not JSON. *)
Definition transport_failed {A} (r : http_outcome A) : Prop :=
  match r with
  | RequestException _ => True
  | Response status_code json => 400 <= status_code < 600 \/ json = None
  end.

(** A call of the upstream that delivers a body. *)
Definition delivers {A} (r : http_outcome A) (body : A) : Prop :=
  exists status_code,
    r = Response status_code (Some body) /\ ~ 400 <= status_code < 600.

(** The number two digits write. *)
Definition two (a b : ascii) : Z := 10 * Py.digit_value a + Py.digit_value b.

(** A timestamp as the upstream writes it:
    [YYYY-MM-DDTHH:MM:SS.fffZ], from its seventeen digits. *)
Definition upstream_timestamp (y1 y2 y3 y4 m1 m2 d1 d2 h1 h2 n1 n2 s1 s2 f1 f2 f3 : ascii)
  : string :=
  String y1 (String y2 (String y3 (String y4 (String "-"
  (String m1 (String m2 (String "-" (String d1 (String d2 (String "T"
  (String h1 (String h2 (String ":" (String n1 (String n2 (String ":"
  (String s1 (String s2 (String "." (String f1 (String f2 (String f3
  (String "Z" EmptyString))))))))))))))))))))))).

(** A computation that raises the [OverflowError] of a date out of range. *)
Definition overflows {A} (m : M A) (w : World) : Prop :=
  exists w', m w = (Err (OverflowError "date value out of range"), w').

(** A computation that does that or returns, the clock left as it was. *)
Definition returns_or_overflows {A} (m : M A) (w : World) : Prop :=
  (exists a w', m w = (Ok a, w') /\ clock w' = clock w) \/ overflows m w.


(** The payload of a timeline as [get_user_tweets] hands it to the parser:
    when it has [data], the resolved user is its only expansion. *)
Definition with_author (user : user_data) (payload : tweets_payload)
  : tweets_payload :=
  match p_data payload with
  | Some _ => mkPayload (p_data payload) (Some (mkIncludes (Some [user])))
  | None => payload
  end.


(** An upstream whose answer to a search depends on the tag: no connection
    for [#down], an item whose [author_id] is no numeral for [#badauthor], an
    expanded user without [id] for [#noid], and no [data] for any other. It
    knows one handle, [jack], and has one tweet on every timeline. *)
Definition upstream_by_tag : Upstream :=
  mkUpstream
    (fun query _ =>
       if String.eqb query "#down" then RequestException "no connection"
       else if String.eqb query "#badauthor" then
         Response 200 (Some (mkPayload
           (Some [mkTweetData (Some "abc") (Some "hello") None None]) None))
       else if String.eqb query "#noid" then
         Response 200 (Some (mkPayload
           (Some [mkTweetData (Some "12") (Some "hello") None None])
           (Some (mkIncludes (Some [mkUser None (Some "Jack") (Some "jack")])))))
       else Response 200 (Some (mkPayload None None)))
    (fun username =>
       if String.eqb username "jack"
       then Response 200 (Some (mkUserPayload
              (Some (mkUser (Some "12") (Some "Jack") (Some "jack")))))
       else Response 200 (Some (mkUserPayload None)))
    (fun _ _ =>
       Response 200 (Some (mkPayload
         (Some [mkTweetData (Some "12") (Some "hello") None None]) None))).

(** The number [random.randint(1000000, 99999999)] returns when it is the
    first draw from the stream [seeded]. *)
Definition first_randint (seeded : nat -> N) : Z :=
  match fst (random.randint 1000000 99999999 (mkWorld seeded (fun _ => 0) 0 0)) with
  | Ok n => n
  | Err _ => 0
  end.

Lemma returns_ret {A} (a : A) w (P : A -> Prop) :
  P a -> returns (ret a) w 0 P.
Proof.
  intros HP. exists a, w. unfold ret. repeat split; auto with arith.
Qed.

Lemma returns_bind {A B} (m : M A) (k : A -> M B) w c1 c2 (P : A -> Prop)
      (Q : B -> Prop) :
  returns m w c1 P ->
  (forall a w', clock w' = clock w -> P a -> returns (k a) w' c2 Q) ->
  returns (bind m k) w (c1 + c2) Q.
Proof.
  intros (a & w1 & Hm & Hc & Hr & Hd & HP) Hk.
  destruct (Hk a w1 Hc HP) as (b & w2 & Hk' & Hc' & Hr' & Hd' & HQ).
  exists b, w2. unfold bind. rewrite Hm, Hk'.
  repeat split; try congruence; auto. lia.
Qed.

Lemma returns_weaken {A} (m : M A) w c (P Q : A -> Prop) :
  returns m w c P -> (forall a, P a -> Q a) -> returns m w c Q.
Proof.
  intros (a & w' & H & Hc & Hr & Hd & HP) HPQ.
  exists a, w'. repeat split; auto.
Qed.

Lemma returns_randbelow n w :
  0 < n -> returns (random._randbelow n) w 1 (fun i => 0 <= i < n).
Proof.
  intros Hn. eexists _, _. unfold random._randbelow.
  split; [reflexivity|]. cbn [clock randoms drawn].
  split; [reflexivity|]. split; [reflexivity|]. split; [lia|].
  apply Z.mod_pos_bound. exact Hn.
Qed.

Lemma returns_choice {A} (seq : list A) w :
  seq <> [] -> returns (random.choice seq) w 1 (fun x => In x seq).
Proof.
  intros Hne. destruct seq as [|x0 seq0]; [congruence|].
  unfold random.choice. remember (x0 :: seq0) as seq.
  change 1%nat with (1 + 0)%nat.
  eapply returns_bind.
  - apply returns_randbelow. subst seq. cbn [length]. lia.
  - intros i w' _ Hi. cbn beta in Hi.
    assert (Hlt : (Z.to_nat i < length seq)%nat) by lia.
    destruct (lookup_lt_is_Some_2 seq (Z.to_nat i) Hlt) as [x Hx]. rewrite Hx.
    apply returns_ret. apply list_elem_of_In.
    eapply list_elem_of_lookup_2; eauto.
Qed.

Lemma returns_randint a b w :
  a <= b -> returns (random.randint a b) w 1 (fun x => a <= x <= b).
Proof.
  intros Hab. unfold random.randint.
  destruct (Z.leb_spec (b - a + 1) 0); [lia|].
  change 1%nat with (1 + 0)%nat.
  eapply returns_bind.
  - apply returns_randbelow. lia.
  - intros k w' _ Hk. cbn beta in Hk. apply returns_ret. lia.
Qed.

(** The next statement of a body: a draw by [choice] or [randint], whose
    outcome and range are named, or any other statement with its lemma. *)
Ltac next_choice x H :=
  eapply returns_bind;
  [ apply returns_choice; discriminate
  | intros x ? ? H; cbn beta in H ].

Ltac next_randint x H :=
  eapply returns_bind;
  [ apply returns_randint; lia
  | intros x ? _ H; cbn beta in H ].

(** A loop whose body returns at every index returns one element per index. *)
Lemma returns_for_range {A} (body : Z -> M A) (c : nat) (P : A -> Prop) :
  forall count start w,
    (forall i w', clock w' = clock w ->
                  start <= i < start + Z.of_nat count ->
                  returns (body i) w' c P) ->
    returns (for_range body start count) w (count * c)
            (fun xs => length xs = count /\ Forall P xs).
Proof.
  induction count as [|count IH]; intros start w Hbody.
  - cbn. apply returns_ret. split; [reflexivity | constructor].
  - cbn [for_range]. change (S count * c)%nat with (c + count * c)%nat.
    eapply returns_bind.
    + apply Hbody; [reflexivity | lia].
    + intros x w1 Hc1 HPx. cbn beta in HPx.
      replace (count * c)%nat with (count * c + 0)%nat by lia.
      eapply returns_bind.
      * apply IH. intros i w2 Hc2 Hi. apply Hbody; [congruence | lia].
      * intros xs w2 _ [Hlen Hall]. apply returns_ret. cbn. split.
        -- now rewrite Hlen.
        -- now constructor.
Qed.

(** ** The synthetic backend *)

Lemma returns_generate_date i w :
  0 <= i -> (forall k, i * 43200 <= clock w k < Datetime.MAX_SECONDS) ->
  returns (TwitterMockService._generate_date i) w 0 (fun _ => True).
Proof.
  intros Hi Hclock. specialize (Hclock (ticked w)).
  assert (Hb : (clock w (ticked w) - i * 43200 <? 0) ||
               (Datetime.MAX_SECONDS <=? clock w (ticked w) - i * 43200) = false).
  { apply orb_false_iff. split; [apply Z.ltb_ge | apply Z.leb_gt]; lia. }
  eexists _, _.
  unfold TwitterMockService._generate_date, bind, Datetime.now.
  cbv beta iota. rewrite Hb. unfold ret.
  split; [reflexivity|]. cbn. repeat split; lia.
Qed.

Lemma clock_allows_index w limit i :
  clock_allows w limit -> 0 <= i < limit ->
  forall k, i * 43200 <= clock w k < Datetime.MAX_SECONDS.
Proof.
  intros H Hi k. specialize (H k). lia.
Qed.

Lemma contains_In x l : Py.contains x l = true -> In x l.
Proof.
  unfold Py.contains. intros H. apply existsb_exists in H.
  destruct H as (y & Hy & Heq). apply String.eqb_eq in Heq. now subst.
Qed.

(** One iteration of the loop of [get_tweets_by_hashtag]. *)
Lemma returns_hashtag_tweet key i w :
  0 <= i -> (forall k, i * 43200 <= clock w k < Datetime.MAX_SECONDS) ->
  returns (TwitterMockService.hashtag_tweet key i) w 5
    (fun t => In (account t) TwitterMockService.SAMPLE_ACCOUNTS /\
              tag_forced key t /\ metrics_in_range t).
Proof.
  intros Hi Hclock. unfold TwitterMockService.hashtag_tweet.
  change 5%nat with (1 + (1 + (0 + (1 + (1 + (1 + 0))))))%nat.
  next_choice acc Hacc. next_choice base Hbase.
  assert (Hforced : forall t eh tx,
    (eh, tx) =
      (if negb (Py.contains key (TwitterMockService.existing_hashtags_of base))
       then (key :: TwitterMockService.existing_hashtags_of base,
             base +:+ TwitterMockService.nl +:+ "#" +:+ key)
       else (TwitterMockService.existing_hashtags_of base, base)) ->
    text t = tx -> hashtags t = map (fun tag => "#" +:+ tag) eh ->
    tag_forced key t).
  { intros t eh tx Heq Htx Hh. exists base. split; [exact Hbase|]. cbn zeta.
    destruct (Py.contains key (TwitterMockService.existing_hashtags_of base));
      cbn in Heq; inversion Heq; subst eh tx; split; assumption. }
  destruct (if negb (Py.contains key (TwitterMockService.existing_hashtags_of base))
            then _ else _) as [eh tx].
  eapply returns_bind.
  { apply returns_generate_date; [exact Hi|]. intros k.
    repeat match goal with E : clock _ = clock _ |- _ => rewrite E; clear E end.
    apply Hclock. }
  intros d w3 _ _.
  next_randint r1 Hr1. next_randint r2 Hr2. next_randint r3 Hr3.
  apply returns_ret. cbn. split; [exact Hacc|]. split.
  - eapply Hforced; reflexivity.
  - unfold metrics_in_range. cbn. lia.
Qed.

(** One iteration of the loop of [get_user_tweets]. *)
Lemma returns_user_tweet acct i w :
  0 <= i -> (forall k, i * 43200 <= clock w k < Datetime.MAX_SECONDS) ->
  returns (TwitterMockService.user_tweet acct i) w 4
    (fun t => account t = acct /\
              (exists base_text,
                  In base_text TwitterMockService.SAMPLE_TEXTS /\
                  text t = base_text /\
                  hashtags t =
                    List.filter (Py.startswith "#") (Py.split base_text)) /\
              metrics_in_range t).
Proof.
  intros Hi Hclock. unfold TwitterMockService.user_tweet.
  change 4%nat with (1 + (0 + (1 + (1 + (1 + 0)))))%nat.
  next_choice base Hbase.
  eapply returns_bind.
  { apply returns_generate_date; [exact Hi|]. intros k.
    repeat match goal with E : clock _ = clock _ |- _ => rewrite E; clear E end.
    apply Hclock. }
  intros d w2 _ _.
  next_randint r1 Hr1. next_randint r2 Hr2. next_randint r3 Hr3.
  apply returns_ret. cbn. split; [reflexivity|]. split.
  - exists base. auto.
  - unfold metrics_in_range. cbn. lia.
Qed.

Lemma returns_resolve_account username w :
  returns (TwitterMockService.resolve_account username) w
          (resolution_draws username) (resolved_account username).
Proof.
  unfold TwitterMockService.resolve_account, resolution_draws.
  unfold TwitterMockService.matching_account.
  destruct (find _ TwitterMockService.SAMPLE_ACCOUNTS) as [acc|] eqn:Hfind.
  - apply returns_ret. left. apply find_some in Hfind.
    destruct Hfind as [Hin Heq]. split; [exact Hin|].
    now apply String.eqb_eq in Heq.
  - change 1%nat with (1 + 0)%nat.
    next_randint n Hn. apply returns_ret. right.
    split; [|cbn; auto].
    intros acc Hin Hm. pose proof (find_none _ _ Hfind acc Hin) as Hf.
    cbn beta in Hf. apply String.eqb_neq in Hf. now apply Hf.
Qed.

Lemma returns_get_tweets_by_hashtag tag limit w :
  tag <> EmptyString -> clock_allows w limit ->
  returns (TwitterMockService.get_tweets_by_hashtag tag limit) w
    (Z.to_nat limit * 5)
    (fun tweets =>
       length tweets = Z.to_nat limit /\
       Forall (fun t =>
                 In (account t) TwitterMockService.SAMPLE_ACCOUNTS /\
                 tag_forced (TwitterMockService.normalize_hashtag tag) t /\
                 metrics_in_range t) tweets).
Proof.
  intros Hne Hclock. destruct tag as [|c tag]; [congruence|].
  cbn [TwitterMockService.get_tweets_by_hashtag]. unfold for_in_range.
  apply returns_for_range. intros i w' Hc Hi.
  apply returns_hashtag_tweet; [lia|]. rewrite Hc.
  eapply clock_allows_index; [exact Hclock | lia].
Qed.

Lemma returns_get_user_tweets handle limit w :
  handle <> EmptyString -> clock_allows w limit ->
  exists acct,
    resolved_account (TwitterMockService.normalize_username handle) acct /\
    returns (TwitterMockService.get_user_tweets handle limit) w
      (resolution_draws (TwitterMockService.normalize_username handle) +
       Z.to_nat limit * 4)
      (fun tweets =>
         length tweets = Z.to_nat limit /\
         Forall (fun t => account t = acct /\ metrics_in_range t) tweets).
Proof.
  intros Hne Hclock. destruct handle as [|c handle]; [congruence|].
  cbn [TwitterMockService.get_user_tweets].
  set (u := TwitterMockService.normalize_username (String c handle)).
  destruct (returns_resolve_account u w) as (acct & w1 & Hr & Hc1 & Hr1 & Hd1 & Hacct).
  exists acct. split; [exact Hacct|].
  eapply returns_bind with (P := fun a => a = acct).
  - exists acct, w1. repeat split; auto.
  - intros a w' Hc Ha. cbn beta in Ha. subst a. unfold for_in_range.
    eapply returns_weaken.
    + apply returns_for_range. intros i w2 Hc2 Hi.
      apply returns_user_tweet; [lia|]. rewrite Hc2, Hc.
      eapply clock_allows_index; [exact Hclock | lia].
    + cbn beta. intros tweets [Hlen Hall]. split; [exact Hlen|].
      eapply Forall_impl; [exact Hall|]. cbn beta. tauto.
Qed.

Lemma valid_clock_allows w n : valid_clock w -> n <= 100 -> clock_allows w n.
Proof.
  intros H Hn k. specialize (H k). lia.
Qed.

Lemma sample_world_valid : valid_clock sample_world.
Proof.
  intros k. cbn. unfold Datetime.MAX_SECONDS. lia.
Qed.

(** C1. For every limit [n] between 1 and 100 and every non-empty key, in a
    world whose clock reads real datetimes, the synthetic backend's
    [get_tweets_by_hashtag] and [get_user_tweets] each return a list of
    exactly [n] tweets. *)
Theorem synthetic_returns_exactly_n (w : World) (key : string) (n : Z) :
  key <> EmptyString -> 1 <= n <= 100 -> valid_clock w ->
  (exists tweets w',
      TwitterMockService.get_tweets_by_hashtag key n w = (Ok tweets, w') /\
      Z.of_nat (length tweets) = n) /\
  (exists tweets w',
      TwitterMockService.get_user_tweets key n w = (Ok tweets, w') /\
      Z.of_nat (length tweets) = n).
Proof.
  intros Hne Hn Hclock.
  assert (Hallow : clock_allows w n) by (apply valid_clock_allows; [auto | lia]).
  split.
  - destruct (returns_get_tweets_by_hashtag key n w Hne Hallow)
      as (tweets & w' & Hrun & _ & _ & _ & Hlen & _).
    exists tweets, w'. split; [exact Hrun | lia].
  - destruct (returns_get_user_tweets key n w Hne Hallow)
      as (acct & _ & tweets & w' & Hrun & _ & _ & _ & Hlen & _).
    exists tweets, w'. split; [exact Hrun | lia].
Qed.

Lemma synthetic_returns_exactly_n_witness :
  (exists tweets w',
      TwitterMockService.get_tweets_by_hashtag "python" 5 sample_world
        = (Ok tweets, w') /\
      Z.of_nat (length tweets) = 5) /\
  (exists tweets w',
      TwitterMockService.get_user_tweets "python" 5 sample_world
        = (Ok tweets, w') /\
      Z.of_nat (length tweets) = 5).
Proof.
  apply (synthetic_returns_exactly_n sample_world "python" 5).
  - discriminate.
  - lia.
  - exact sample_world_valid.
Defined.

Lemma lower_char_idempotent c : Py.lower_char (Py.lower_char c) = Py.lower_char c.
Proof.
  destruct c as [[] [] [] [] [] [] [] []]; reflexivity.
Qed.

Lemma lower_idempotent s : Py.lower (Py.lower s) = Py.lower s.
Proof.
  induction s as [|c s IH]; cbn; [reflexivity|].
  now rewrite lower_char_idempotent, IH.
Qed.

Lemma tag_forced_In key t : tag_forced key t -> In ("#" +:+ key) (hashtags t).
Proof.
  intros (base & _ & H). cbn zeta in H.
  destruct (Py.contains key _) eqn:Hc; destruct H as [_ Hh]; rewrite Hh.
  - apply contains_In in Hc.
    exact (in_map (fun tag => "#" +:+ tag) _ _ Hc).
  - now left.
Qed.



(** C8. [get_user_tweets] resolves the account once and every tweet of the
    call carries it: the entry of the sample pool whose [href] is the
    normalized handle up to case when there is one, and otherwise one new
    account whose [fullname] is the title-cased handle, whose [href] is
    ["/" + handle] and whose [id] lies in 1000000..99999999. The resolution
    draws one random number for a new account and none for a known one,
    however many tweets follow. *)
Theorem user_tweets_share_resolved_account (w : World) (handle : string) (n : Z) :
  handle <> EmptyString -> clock_allows w n ->
  exists acct tweets w',
    TwitterMockService.get_user_tweets handle n w = (Ok tweets, w') /\
    length tweets = Z.to_nat n /\
    Forall (fun t => account t = acct) tweets /\
    resolved_account (TwitterMockService.normalize_username handle) acct /\
    drawn w' =
      (drawn w +
       (resolution_draws (TwitterMockService.normalize_username handle) +
        Z.to_nat n * 4))%nat.
Proof.
  intros Hne Hclock.
  destruct (returns_get_user_tweets handle n w Hne Hclock)
    as (acct & Hacct & tweets & w' & Hrun & _ & _ & Hdrawn & Hlen & Hall).
  exists acct, tweets, w'. repeat split; auto.
  eapply Forall_impl; [exact Hall|]. cbn beta. tauto.
Qed.

Lemma user_tweets_share_resolved_account_witness :
  exists acct tweets w',
    TwitterMockService.get_user_tweets "unknownuser123" 5 sample_world
      = (Ok tweets, w') /\
    length tweets = 5%nat /\
    Forall (fun t => account t = acct) tweets /\
    resolved_account "unknownuser123" acct /\
    drawn w' = 21%nat.
Proof.
  apply (user_tweets_share_resolved_account sample_world "unknownuser123" 5).
  - discriminate.
  - apply valid_clock_allows; [exact sample_world_valid | lia].
Defined.

(** The two lookups of the tests: a handle of the pool, in another case, and
    a handle that is not in the pool. *)
Example known_and_unknown_user :
  (exists tweets,
      fst (TwitterMockService.get_user_tweets "@twitter" 5 sample_world)
        = Ok tweets /\
      Forall (fun t => account t = mkAccount "Twitter" "/Twitter" 783214) tweets) /\
  (exists tweets,
      fst (TwitterMockService.get_user_tweets "unknownuser123" 5 sample_world)
        = Ok tweets /\
      Forall (fun t => account t =
                         mkAccount "Unknownuser123" "/unknownuser123" 1000003)
             tweets).
Proof.
  split; eexists; (split; [vm_compute; reflexivity|]);
    repeat (apply Forall_cons_2; [reflexivity|]); apply Forall_nil_2.
Qed.

(** C10. For every limit [n <= 0] and every non-empty key, both operations of
    the synthetic backend return the empty list and raise nothing: the loop
    runs no iteration, and no bound on the limit is checked. *)
Theorem synthetic_nonpositive_limit_empty (w : World) (key : string) (n : Z) :
  key <> EmptyString -> n <= 0 ->
  fst (TwitterMockService.get_tweets_by_hashtag key n w) = Ok [] /\
  fst (TwitterMockService.get_user_tweets key n w) = Ok [].
Proof.
  intros Hne Hn. destruct key as [|c key]; [congruence|].
  cbn [TwitterMockService.get_tweets_by_hashtag TwitterMockService.get_user_tweets].
  unfold for_in_range. rewrite (Z2Nat.nonpos n Hn). cbn [for_range].
  split; [reflexivity|].
  destruct (returns_resolve_account
              (TwitterMockService.normalize_username (String c key)) w)
    as (acct & w' & Hr & _).
  unfold bind. now rewrite Hr.
Qed.

Lemma synthetic_nonpositive_limit_empty_witness :
  fst (TwitterMockService.get_tweets_by_hashtag "python" (-3) sample_world) = Ok [] /\
  fst (TwitterMockService.get_user_tweets "python" (-3) sample_world) = Ok [].
Proof.
  apply (synthetic_nonpositive_limit_empty sample_world "python" (-3)).
  - discriminate.
  - lia.
Defined.

(** ** The limit validator *)

(** C7. [validate_limit] returns the default when the raw value is absent,
    fails with [InvalidInput] when the raw value is not an integer, or is one
    below 1 or above 100, and otherwise returns the integer unchanged; so
    ["50"] gives 50, [None] gives the default 30, ["1"] and ["100"] pass, and
    ["0"], ["200"] and ["abc"] fail. *)
Theorem validate_limit_spec :
  (forall raw default,
      limit_outcome raw default (validators.validate_limit raw (Some default))) /\
  validators.validate_limit (Some "50") (Some 30) = Ok 50 /\
  validators.validate_limit None (Some 30) = Ok 30 /\
  validators.validate_limit None None = Ok 30 /\
  validators.validate_limit (Some "1") (Some 30) = Ok 1 /\
  validators.validate_limit (Some "100") (Some 30) = Ok 100 /\
  InvalidInput (validators.validate_limit (Some "0") (Some 30)) /\
  InvalidInput (validators.validate_limit (Some "200") (Some 30)) /\
  InvalidInput (validators.validate_limit (Some "abc") (Some 30)).
Proof.
  split; [|repeat (split; [vm_compute; reflexivity || exact I|]); exact I].
  intros [s|] default; cbn [validators.validate_limit].
  - destruct (Py.int s) as [v|] eqn:Hint.
    + unfold Config.MIN_TWEET_LIMIT, Config.MAX_TWEET_LIMIT.
      destruct (Z.ltb_spec v 1).
      * eapply limit_below_minimum; eauto.
      * destruct (Z.gtb_spec v 100).
        -- eapply limit_above_maximum; eauto.
        -- eapply limit_in_range; eauto; lia.
    + eapply limit_not_an_integer; eauto.
  - now apply limit_absent.
Qed.

(** ** Keys *)

Lemma lstrip_decompose c s :
  exists k, s = times c k +:+ Py.lstrip c s.
Proof.
  induction s as [|d s IH].
  - now exists 0%nat.
  - cbn [Py.lstrip]. destruct (Ascii.eqb_spec d c) as [->|Hne].
    + destruct IH as [k Hk]. exists (S k).
      change (String c s = String c (times c k +:+ Py.lstrip c s)).
      f_equal. exact Hk.
    + now exists 0%nat.
Qed.

Lemma lstrip_no_marker c s : Py.startswith c (Py.lstrip c s) = false.
Proof.
  induction s as [|d s IH]; [reflexivity|].
  cbn [Py.lstrip]. destruct (Ascii.eqb d c) eqn:E; [exact IH | exact E].
Qed.

Lemma lstrip_strip_one c s : Py.lstrip c (strip_one_marker c s) = Py.lstrip c s.
Proof.
  destruct s as [|d s]; [reflexivity|]. cbn.
  destruct (Ascii.eqb d c) eqn:E; [reflexivity|]. cbn. now rewrite E.
Qed.

Lemma lstrip_is_strip_one c s :
  String.eqb (Py.lstrip c s) (strip_one_marker c s)
    = negb (Py.startswith c (strip_one_marker c s)).
Proof.
  destruct s as [|d s]; [reflexivity|]. cbn [Py.lstrip strip_one_marker].
  destruct (Ascii.eqb d c) eqn:E.
  - destruct s as [|e s]; [reflexivity|]. cbn [Py.lstrip Py.startswith].
    destruct (Ascii.eqb e c) eqn:E'; cbn [negb].
    + apply String.eqb_neq. intros Heq.
      pose proof (lstrip_no_marker c s) as Hno. rewrite Heq in Hno.
      cbn in Hno. congruence.
    + apply String.eqb_refl.
  - cbn [Py.startswith]. rewrite E. apply String.eqb_refl.
Qed.

(** C6, as the code has it. Normalization removes every leading marker, not
    one: the key is what is left of the input after all its leading [#] (for
    a tag) or [@] (for a handle), so it never starts with the marker and it is
    what a single strip gives exactly when a single strip leaves no marker.
    The synthetic backend lower-cases the tag as well. *)
Theorem normalization_strips_every_marker (s : string) :
  (exists k, s = times "#" k +:+ TwitterAPIService.normalize_hashtag s) /\
  Py.startswith "#" (TwitterAPIService.normalize_hashtag s) = false /\
  TwitterAPIService.normalize_hashtag (strip_one_marker "#" s)
    = TwitterAPIService.normalize_hashtag s /\
  String.eqb (TwitterAPIService.normalize_hashtag s) (strip_one_marker "#" s)
    = negb (Py.startswith "#" (strip_one_marker "#" s)) /\
  TwitterMockService.normalize_hashtag s
    = Py.lower (TwitterAPIService.normalize_hashtag s) /\
  (exists k, s = times "@" k +:+ TwitterAPIService.normalize_username s) /\
  Py.startswith "@" (TwitterAPIService.normalize_username s) = false /\
  TwitterAPIService.normalize_username (strip_one_marker "@" s)
    = TwitterAPIService.normalize_username s /\
  String.eqb (TwitterAPIService.normalize_username s) (strip_one_marker "@" s)
    = negb (Py.startswith "@" (strip_one_marker "@" s)) /\
  TwitterMockService.normalize_username s
    = TwitterAPIService.normalize_username s.
Proof.
  unfold TwitterAPIService.normalize_hashtag, TwitterAPIService.normalize_username,
    TwitterMockService.normalize_hashtag, TwitterMockService.normalize_username.
  repeat split;
    auto using lstrip_decompose, lstrip_no_marker, lstrip_strip_one,
      lstrip_is_strip_one.
Qed.

(** C6 as stated fails: of two leading markers the code removes both. *)
Lemma single_strip_refuted :
  TwitterAPIService.normalize_hashtag "##python" = "python" /\
  TwitterMockService.normalize_hashtag "##python" = "python" /\
  strip_one_marker "#" "##python" = "#python" /\
  TwitterAPIService.normalize_hashtag "##python" <> strip_one_marker "#" "##python" /\
  TwitterMockService.normalize_username "@@twitter" = "twitter" /\
  TwitterMockService.normalize_username "@@twitter" <> strip_one_marker "@" "@@twitter".
Proof.
  repeat split; try reflexivity; discriminate.
Qed.

(** The empty key is refused by both operations of both backends with
    [InvalidInput], before anything else happens: the synthetic backend has
    drawn no number and read no clock, and the answer of the upstream backend
    does not depend on the upstream. *)
Theorem empty_key_rejected (w : World) (api : Upstream) (limit : Z) :
  TwitterMockService.get_tweets_by_hashtag EmptyString limit w
    = (Err (ValueError "Hashtag cannot be empty"), w) /\
  TwitterMockService.get_user_tweets EmptyString limit w
    = (Err (ValueError "Username cannot be empty"), w) /\
  TwitterAPIService.get_tweets_by_hashtag api EmptyString limit
    = Err (ValueError "Hashtag cannot be empty") /\
  TwitterAPIService.get_user_tweets api EmptyString limit
    = Err (ValueError "Username cannot be empty").
Proof.
  repeat split.
Qed.

(** C5. The code at the keys ["#"] and ["@"], which are empty once the
    marker is trimmed. The guard that refuses an empty key tests the key as
    it was passed, before [lstrip], so these keys pass it: the synthetic
    backend produces tweets for the empty tag (with the hashtag ["#"]) and
    for the empty handle (by the account [""], ["/"]), and the upstream
    backend searches for ["#"] and looks up the user [""]. No call fails
    with [InvalidInput]. *)
Lemma marker_only_key_accepted :
  fst (TwitterMockService.get_tweets_by_hashtag "#" 1 sample_world)
    = Ok [mkTweet (mkAccount "Real Python" "/realpython" 752486881)
            "2:30 PM - 15 Mar 2023"
            ("Just released a new #Python library for data processing! Check it out: github.com/example"
               +:+ TwitterMockService.nl +:+ "#")
            17 24 31 ["#"; "#python"]] /\
  fst (TwitterMockService.get_user_tweets "@" 1 sample_world)
    = Ok [mkTweet (mkAccount EmptyString "/" 1000003)
            "2:30 PM - 15 Mar 2023"
            "Just released a new #Python library for data processing! Check it out: github.com/example"
            17 24 31 ["#Python"]] /\
  TwitterAPIService.get_tweets_by_hashtag sample_upstream "#" 1 = Ok [] /\
  TwitterAPIService.get_tweets_by_hashtag
    (mkUpstream
       (fun query _ =>
          if String.eqb query "#"
          then Response 200 (Some (mkPayload None None))
          else RequestException "another query")
       (fun _ => RequestException "unused")
       (fun _ _ => RequestException "unused"))
    "#" 1 = Ok [] /\
  TwitterAPIService.get_user_tweets sample_upstream "@" 1
    = Err (RuntimeError "User '' not found") /\
  ~ InvalidInput (fst (TwitterMockService.get_tweets_by_hashtag "#" 1 sample_world)) /\
  ~ InvalidInput (fst (TwitterMockService.get_user_tweets "@" 1 sample_world)) /\
  ~ InvalidInput (TwitterAPIService.get_tweets_by_hashtag sample_upstream "#" 1) /\
  ~ InvalidInput (TwitterAPIService.get_user_tweets sample_upstream "@" 1).
Proof.
  split; [vm_compute; reflexivity|].
  split; [vm_compute; reflexivity|].
  split; [vm_compute; reflexivity|].
  split; [vm_compute; reflexivity|].
  split; [vm_compute; reflexivity|].
  split; [vm_compute; exact (fun H => H)|].
  split; [vm_compute; exact (fun H => H)|].
  split; vm_compute; exact (fun H => H).
Qed.

(** ** Limits outside 1..100 *)

Lemma status_checks_spec (checks : Z -> result unit) status_code :
  checks = TwitterAPIService._handle_api_errors \/
  checks = TwitterAPIService.search_status_errors ->
  match checks status_code with
  | Ok _ => True
  | Err e => 400 <= status_code < 600 /\ exists msg, e = RuntimeError msg
  end.
Proof.
  intros [-> | ->];
    unfold TwitterAPIService._handle_api_errors,
      TwitterAPIService.search_status_errors;
    destruct (Z.eqb_spec status_code 429);
    [split; [lia | eauto] | | split; [lia | eauto] |];
    (destruct (Z.eqb_spec status_code 401); [split; [lia | eauto]|]);
    (destruct (Z.eqb_spec status_code 403); [split; [lia | eauto]|]);
    exact I.
Qed.

(** What a call inside the [try] block comes to. *)
Lemma receive_spec {A} (checks : Z -> result unit) (r : http_outcome A) :
  checks = TwitterAPIService._handle_api_errors \/
  checks = TwitterAPIService.search_status_errors ->
  match TwitterAPIService.receive checks r with
  | Ok body => delivers r body
  | Err e => transport_failed r /\ exists msg, e = RuntimeError msg
  end.
Proof.
  intros Hc. unfold TwitterAPIService.receive.
  destruct r as [msg|status_code json]; [split; [exact I | eauto]|].
  pose proof (status_checks_spec checks status_code Hc) as Hs.
  destruct (checks status_code) as [[]|e]; cbn [rbind].
  - destruct (Z.leb_spec 400 status_code), (Z.ltb_spec status_code 600);
      cbn [andb]; try (split; [left; lia | eauto]);
      (destruct json as [body|];
       [exists status_code; split; [reflexivity | lia]
       | split; [right; reflexivity | eauto]]).
  - destruct Hs as [Hr Hmsg]. split; [left; exact Hr | exact Hmsg].
Qed.





(** ** The upstream backend: normalizing a payload *)

(** The counts of a parsed tweet are those of the payload, 0 for each one
    that is absent. *)
Lemma parse_tweet_counts users td t :
  TwitterAPIService.parse_tweet users td = Ok t ->
  replies t = count_of reply_count (td_public_metrics td) /\
  retweets t = count_of retweet_count (td_public_metrics td) /\
  likes t = count_of like_count (td_public_metrics td).
Proof.
  unfold TwitterAPIService.parse_tweet, rbind.
  destruct (TwitterAPIService.account_id _); [|discriminate].
  destruct (TwitterAPIService._format_date _); [|discriminate].
  intros H. inversion H; subst t; clear H. cbn.
  destruct (td_public_metrics td) as [[[r|] [rt|] [l|]]|]; cbn; auto.
Qed.

Lemma format_date_returns iso_date :
  exists out, TwitterAPIService._format_date iso_date = Ok out.
Proof.
  unfold TwitterAPIService._format_date, Iso.fromisoformat.
  destruct (Iso.parse _); eexists; reflexivity.
Qed.

Lemma parse_test_response created_at username metrics :
  exists d,
    TwitterAPIService._parse_tweets_response
      (test_response created_at username metrics)
    = Ok [mkTweet
            (mkAccount "Test User"
               ("/" +:+ TwitterAPIService.get username "unknown") 987654321)
            d "This is a test tweet #python"
            (count_of reply_count metrics) (count_of retweet_count metrics)
            (count_of like_count metrics) ["#python"]].
Proof.
  destruct (format_date_returns (TwitterAPIService.get created_at EmptyString))
    as [d Hd].
  exists d.
  unfold TwitterAPIService._parse_tweets_response, test_response.
  cbn [p_data]. unfold TwitterAPIService.build_users.
  cbn [p_includes inc_users fold_left TwitterAPIService.add_user rbind user_id
       traverse].
  unfold TwitterAPIService.parse_tweet.
  cbn [td_author_id td_text td_created_at td_public_metrics].
  unfold TwitterAPIService.author_info_of. rewrite lookup_insert_eq, Hd.
  destruct metrics as [[[r|] [rt|] [l|]]|]; reflexivity.
Qed.

(** C3. A payload with the one item and the one expansion user of the unit
    test is normalized to exactly one tweet with the text unchanged,
    ["Test User"] as the author's name and ["#python"] among the hashtags;
    with the metrics 5, 10 and 50 it has 5 replies, 10 retweets and 50 likes,
    and whatever the metrics, of this item or of any other, a count that is
    absent from the payload is 0. *)
Theorem test_payload_normalized :
  TwitterAPIService._parse_tweets_response
    (test_response (Some "2023-03-15T14:30:00.000Z") (Some "testuser")
       (Some (mkMetrics (Some 5) (Some 10) (Some 50))))
    = Ok [mkTweet (mkAccount "Test User" "/testuser" 987654321)
            "2:30 PM - 15 Mar 2023" "This is a test tweet #python"
            5 10 50 ["#python"]] /\
  (forall created_at username,
      exists t,
        TwitterAPIService._parse_tweets_response
          (test_response created_at username
             (Some (mkMetrics (Some 5) (Some 10) (Some 50)))) = Ok [t] /\
        text t = "This is a test tweet #python" /\
        fullname (account t) = "Test User" /\
        likes t = 50 /\ retweets t = 10 /\ replies t = 5 /\
        In "#python" (hashtags t)) /\
  (forall created_at username metrics,
      exists t,
        TwitterAPIService._parse_tweets_response
          (test_response created_at username metrics) = Ok [t] /\
        replies t = count_of reply_count metrics /\
        retweets t = count_of retweet_count metrics /\
        likes t = count_of like_count metrics) /\
  (forall users td,
      match TwitterAPIService.parse_tweet users td with
      | Ok t =>
          replies t = count_of reply_count (td_public_metrics td) /\
          retweets t = count_of retweet_count (td_public_metrics td) /\
          likes t = count_of like_count (td_public_metrics td)
      | Err _ => True
      end) /\
  count_of reply_count None = 0 /\
  count_of like_count (Some (mkMetrics (Some 5) (Some 10) None)) = 0.
Proof.
  split; [vm_compute; reflexivity|].
  split; [|split; [|split; [|split; reflexivity]]].
  - intros created_at username.
    destruct (parse_test_response created_at username
                (Some (mkMetrics (Some 5) (Some 10) (Some 50)))) as [d Hd].
    eexists. split; [exact Hd|]. cbn.
    repeat (split; [reflexivity|]). now left.
  - intros created_at username metrics.
    destruct (parse_test_response created_at username metrics) as [d Hd].
    eexists. split; [exact Hd|]. cbn. repeat split.
  - intros users td.
    destruct (TwitterAPIService.parse_tweet users td) as [t|e] eqn:E; [|exact I].
    now apply parse_tweet_counts in E.
Qed.

(** ** The upstream backend: dates *)

Lemma digit_value_nonneg c : Py.isdigit c = true -> 0 <= Py.digit_value c.
Proof.
  unfold Py.isdigit, Py.digit_value. intros H.
  apply andb_true_iff in H. destruct H as [H _]. apply N.leb_le in H. lia.
Qed.

Lemma take_digits_nonneg n : forall acc s v r,
  Iso.take_digits n acc s = Some (v, r) -> 0 <= acc -> 0 <= v.
Proof.
  induction n as [|n IH]; intros acc s v r H Hacc; cbn in H.
  - inversion H; subst. exact Hacc.
  - destruct s as [|c s]; [discriminate|].
    destruct (Py.isdigit c) eqn:Hd; [|discriminate].
    apply IH in H; [exact H|]. pose proof (digit_value_nonneg c Hd). lia.
Qed.

Lemma parse_hh_mm_ss_ff_nonneg s h mi sec us :
  Iso.parse_hh_mm_ss_ff s = Some (h, mi, sec, us) ->
  0 <= h /\ 0 <= mi /\ 0 <= sec.
Proof.
  unfold Iso.parse_hh_mm_ss_ff.
  destruct (Iso.take_digits 2 0 s) as [[h' r1]|] eqn:E1; [|discriminate].
  apply take_digits_nonneg in E1; [|lia].
  destruct r1 as [|c1 r1]; [intros H; inversion H; subst; lia|].
  destruct (negb (Ascii.eqb c1 ":")); [discriminate|].
  destruct (Iso.take_digits 2 0 r1) as [[mi' r2]|] eqn:E2; [|discriminate].
  apply take_digits_nonneg in E2; [|lia].
  destruct r2 as [|c2 r2]; [intros H; inversion H; subst; lia|].
  destruct (negb (Ascii.eqb c2 ":")); [discriminate|].
  destruct (Iso.take_digits 2 0 r2) as [[sec' r3]|] eqn:E3; [|discriminate].
  apply take_digits_nonneg in E3; [|lia].
  destruct r3 as [|c3 r3]; [intros H; inversion H; subst; lia|].
  destruct (negb (Ascii.eqb c3 ".")); [discriminate|].
  destruct (Iso.parse_fraction r3); [|discriminate].
  intros H; inversion H; subst; lia.
Qed.

Lemma days_in_month_le y m : Datetime.days_in_month y m <= 31.
Proof.
  unfold Datetime.days_in_month.
  destruct ((m =? 2) && Datetime.is_leap y); [lia|].
  unfold Datetime._DAYS_IN_MONTH.
  destruct m as [|p|p]; try lia.
  do 4 (try destruct p as [p|p|]; try lia).
Qed.

Lemma valid_date_bounds y m d :
  Iso.valid_date y m d = true ->
  1 <= y <= 9999 /\ 1 <= m <= 12 /\ 1 <= d <= 31.
Proof.
  unfold Iso.valid_date. intros H.
  repeat (apply andb_true_iff in H; destruct H as [H ?]).
  repeat match goal with
         | H : (_ <=? _) = true |- _ => apply Z.leb_le in H
         end.
  pose proof (days_in_month_le y m). lia.
Qed.

Lemma valid_time_bounds h mi sec :
  Iso.valid_time h mi sec = true -> h <= 23 /\ mi <= 59 /\ sec <= 59.
Proof.
  unfold Iso.valid_time. intros H.
  repeat (apply andb_true_iff in H; destruct H as [H ?]).
  repeat match goal with
         | H : (_ <=? _) = true |- _ => apply Z.leb_le in H
         end.
  lia.
Qed.

(** What the parser accepts is a date and a time. *)
Lemma parse_valid s dt : Iso.parse s = Some dt -> valid_datetime dt.
Proof.
  unfold Iso.parse.
  destruct (Iso.take_digits 4 0 s) as [[y s1]|]; [|discriminate].
  destruct (Iso.expect "-" s1) as [s2|]; [|discriminate].
  destruct (Iso.take_digits 2 0 s2) as [[m s3]|]; [|discriminate].
  destruct (Iso.expect "-" s3) as [s4|]; [|discriminate].
  destruct (Iso.take_digits 2 0 s4) as [[d s5]|]; [|discriminate].
  destruct (Iso.valid_date y m d) eqn:Hdate; [|discriminate].
  apply valid_date_bounds in Hdate. cbn [negb].
  destruct s5 as [|sep tstr].
  { intros H. inversion H; subst dt. unfold valid_datetime. cbn. lia. }
  destruct (Iso.cut_zone tstr) as [t z].
  destruct (Iso.parse_hh_mm_ss_ff t) as [[[[h mi] sec] us]|] eqn:Htime;
    [|discriminate].
  apply parse_hh_mm_ss_ff_nonneg in Htime.
  destruct (Iso.valid_time h mi sec) eqn:Hvt; [|discriminate].
  apply valid_time_bounds in Hvt. cbn [negb].
  destruct z as [[sign zstr]|].
  - destruct (Iso.parse_zone sign zstr); [|discriminate].
    intros H. inversion H; subst dt. unfold valid_datetime. cbn. lia.
  - intros H. inversion H; subst dt. unfold valid_datetime. cbn. lia.
Qed.

Lemma month_abbr_name m : 1 <= m <= 12 -> In (Datetime.month_abbr m) MONTH_NAMES.
Proof.
  intros H.
  assert (Hm : m = 1 \/ m = 2 \/ m = 3 \/ m = 4 \/ m = 5 \/ m = 6 \/ m = 7 \/
               m = 8 \/ m = 9 \/ m = 10 \/ m = 11 \/ m = 12) by lia.
  unfold MONTH_NAMES.
  repeat (destruct Hm as [->|Hm]; [cbn; tauto|]). subst m. cbn. tauto.
Qed.

(** The rendering of a valid datetime has the display format. *)
Lemma strftime_display_format dt :
  valid_datetime dt -> display_format (Datetime.strftime_display dt).
Proof.
  intros (Hy & Hm & Hd & Hh & Hmi).
  exists (if hour dt mod 12 =? 0 then 12 else hour dt mod 12), (minute dt),
         (Datetime.ampm dt), (day dt), (Datetime.month_abbr (month dt)), (year dt).
  split; [reflexivity|].
  split.
  { destruct (Z.eqb_spec (hour dt mod 12) 0); [lia|].
    pose proof (Z.mod_pos_bound (hour dt) 12). lia. }
  split; [exact Hmi|]. split.
  { unfold Datetime.ampm. destruct (hour dt <? 12); auto. }
  split; [exact Hd|]. split; [now apply month_abbr_name | exact Hy].
Qed.

(** C4. For every input string [_format_date] raises nothing: either the
    string, with [Z] written as [+00:00], parses as an ISO-8601 value, and the
    result is that value in the display format [H:MM AM/PM - D Mon YYYY]; or
    parsing fails, and the result is the input itself, unchanged. A trailing
    [Z] is read as UTC. *)
Theorem format_date_total :
  (forall iso_date,
      exists out,
        TwitterAPIService._format_date iso_date = Ok out /\
        ((exists dt,
             Iso.fromisoformat (Py.replace "Z" "+00:00" iso_date) = Ok dt /\
             out = Datetime.strftime_display dt /\ display_format out) \/
         ((exists e,
              Iso.fromisoformat (Py.replace "Z" "+00:00" iso_date) = Err e) /\
          out = iso_date))) /\
  TwitterAPIService._format_date "2023-03-15T14:30:00.000Z"
    = Ok "2:30 PM - 15 Mar 2023" /\
  Iso.fromisoformat (Py.replace "Z" "+00:00" "2023-03-15T14:30:00.000Z")
    = Ok (mkDatetime 2023 3 15 14 30 0 0 (Some 0)) /\
  TwitterAPIService._format_date "yesterday at noon" = Ok "yesterday at noon" /\
  TwitterAPIService._format_date "2023-02-30T14:30:00Z" = Ok "2023-02-30T14:30:00Z" /\
  TwitterAPIService._format_date EmptyString = Ok EmptyString.
Proof.
  split; [|repeat (split; [vm_compute; reflexivity|]); vm_compute; reflexivity].
  intros iso_date. unfold TwitterAPIService._format_date, Iso.fromisoformat.
  destruct (Iso.parse (Py.replace "Z" "+00:00" iso_date)) as [dt|] eqn:Hparse.
  - eexists. split; [reflexivity|]. left. exists dt.
    split; [reflexivity|]. split; [reflexivity|].
    apply strftime_display_format. eapply parse_valid; eauto.
  - eexists. split; [reflexivity|]. right. split; [|reflexivity].
    eexists. reflexivity.
Qed.

(** * Further properties of the code *)

(** ** Decimal numerals: [int(str(n))] *)

Lemma digits_cons_digit c acc b s :
  Py.isdigit c = true ->
  Py.digits acc b (String c s) = Py.digits (10 * acc + Py.digit_value c) true s.
Proof. intros H. cbn [Py.digits]. now rewrite H. Qed.

Lemma digits_of_uint_acc u : forall p,
  Py.digits (Z.pos p) true (NilEmpty.string_of_uint u)
    = Some (Z.pos (Pos.of_uint_acc u p)).
Proof.
  induction u; intros p; cbn [NilEmpty.string_of_uint Pos.of_uint_acc];
    [reflexivity | ..];
    rewrite digits_cons_digit by reflexivity; rewrite <- IHu; f_equal;
    vm_compute Py.digit_value; unfold Pos.of_uint_acc; lia.
Qed.

Lemma digits_of_uint u : forall b,
  (u = Decimal.Nil -> b = true) ->
  Py.digits 0 b (NilEmpty.string_of_uint u) = Some (Z.of_N (Pos.of_uint u)).
Proof.
  induction u; intros b Hb; cbn [NilEmpty.string_of_uint Pos.of_uint];
    [now rewrite Hb | ..];
    rewrite digits_cons_digit by reflexivity;
    first [ now apply IHu | apply (digits_of_uint_acc u) ].
Qed.

Lemma isspace_c_isspace c : Py.isspace c = false -> Py.isspace_c c = false.
Proof.
  destruct c as [[] [] [] [] [] [] [] []]; vm_compute; congruence.
Qed.

Lemma rstrip_no_space s : no_space s = true -> Py.rstrip_space s = s.
Proof.
  induction s as [|c s IH]; [reflexivity|]. cbn. intros H.
  apply andb_true_iff in H. destruct H as [Hc Hs]. rewrite (IH Hs).
  destruct s; [|reflexivity]. apply negb_true_iff in Hc.
  now rewrite (isspace_c_isspace c Hc).
Qed.

Lemma strip_no_space s : no_space s = true -> Py.strip s = s.
Proof.
  intros H. unfold Py.strip.
  assert (Py.lstrip_space s = s) as ->.
  { destruct s as [|c s]; [reflexivity|]. cbn in *.
    apply andb_true_iff in H. destruct H as [Hc _].
    apply negb_true_iff in Hc. now rewrite (isspace_c_isspace c Hc). }
  now apply rstrip_no_space.
Qed.

Lemma no_space_uint u : no_space (NilEmpty.string_of_uint u) = true.
Proof. induction u; cbn; auto. Qed.

Lemma NilZero_string_of_pos p :
  NilZero.string_of_uint (Pos.to_uint p) = NilEmpty.string_of_uint (Pos.to_uint p).
Proof.
  pose proof (Unsigned.to_uint_nonnil p).
  unfold NilZero.string_of_uint. now destruct (Pos.to_uint p).
Qed.

(** A numeral has as many digits as characters. *)
Lemma count_digits_uint u :
  Py.count_digits (NilEmpty.string_of_uint u)
    = Z.of_nat (Decimal.nb_digits u).
Proof.
  induction u; cbn [NilEmpty.string_of_uint Py.count_digits Decimal.nb_digits];
    [reflexivity | ..];
    rewrite IHu; change (Py.isdigit _) with true; cbv iota; lia.
Qed.

(** The number a numeral writes, between two powers of ten. *)
Lemma of_uint_acc_bounds u : forall p,
  Z.pos p * 10 ^ Z.of_nat (Decimal.nb_digits u)
    <= Z.pos (Pos.of_uint_acc u p)
    < (Z.pos p + 1) * 10 ^ Z.of_nat (Decimal.nb_digits u).
Proof.
  induction u; intros p; cbn [Pos.of_uint_acc Decimal.nb_digits];
    [cbn; lia | ..];
    rewrite Nat2Z.inj_succ, Z.pow_succ_r by lia;
    match goal with
    | |- context [Pos.of_uint_acc u ?q] => specialize (IHu q)
    end;
    set (t := 10 ^ Z.of_nat (Decimal.nb_digits u)) in *;
    assert (0 < t) by (apply Z.pow_pos_nonneg; lia);
    nia.
Qed.

Lemma to_uint_head p :
  match Pos.to_uint p with
  | Decimal.Nil | Decimal.D0 _ => False
  | _ => True
  end.
Proof.
  pose proof (Unsigned.to_of (Pos.to_uint p)) as H.
  rewrite Unsigned.of_to in H. cbn [N.to_uint] in H.
  pose proof (Unsigned.to_uint_nonzero p) as Hz.
  destruct (Pos.to_uint p) as [|d| | | | | | | | |]; try exact I.
  - discriminate H.
  - unfold Decimal.unorm in H. cbn [Decimal.nzhead] in H.
    pose proof (DecimalFacts.nb_digits_nzhead d) as Hle.
    destruct (Decimal.nzhead d) eqn:E.
    + apply Hz. rewrite <- H. reflexivity.
    + injection H as H. subst. cbn [Decimal.nb_digits] in Hle. lia.
    + discriminate H.
    + discriminate H.
    + discriminate H.
    + discriminate H.
    + discriminate H.
    + discriminate H.
    + discriminate H.
    + discriminate H.
    + discriminate H.
Qed.

(** A positive number lies between the powers of ten of its length. *)
Lemma to_uint_bounds p :
  10 ^ (Z.of_nat (Decimal.nb_digits (Pos.to_uint p)) - 1) <= Z.pos p
    < 10 ^ Z.of_nat (Decimal.nb_digits (Pos.to_uint p)).
Proof.
  pose proof (Unsigned.of_to p) as Hof. pose proof (to_uint_head p) as Hhd.
  destruct (Pos.to_uint p) as [|d|d|d|d|d|d|d|d|d|d]; try contradiction;
    cbn [Pos.of_uint Decimal.nb_digits] in *; injection Hof as Hof;
    rewrite Nat2Z.inj_succ;
    replace (Z.succ (Z.of_nat (Decimal.nb_digits d)) - 1)
      with (Z.of_nat (Decimal.nb_digits d)) by lia;
    rewrite Z.pow_succ_r by lia;
    match type of Hof with
    | Pos.of_uint_acc d ?q = _ => pose proof (of_uint_acc_bounds d q) as Hb
    end;
    rewrite Hof in Hb;
    set (t := 10 ^ Z.of_nat (Decimal.nb_digits d)) in *;
    assert (0 < t) by (apply Z.pow_pos_nonneg; lia);
    nia.
Qed.

(** A positive number has more than [n] digits exactly from [10 ^ n] on. *)
Lemma long_numeral p n :
  0 <= n ->
  (Z.of_nat (Decimal.nb_digits (Pos.to_uint p)) >? n) = (10 ^ n <=? Z.pos p).
Proof.
  intros Hn. pose proof (to_uint_bounds p) as [Hlo Hhi].
  set (len := Z.of_nat (Decimal.nb_digits (Pos.to_uint p))) in *.
  destruct (Z.gtb_spec len n) as [Hgt|Hle], (Z.leb_spec (10 ^ n) (Z.pos p))
    as [Hle'|Hlt]; try reflexivity; exfalso.
  - assert (10 ^ n <= 10 ^ (len - 1)) by (apply Z.pow_le_mono_r; lia). lia.
  - assert (10 ^ len <= 10 ^ n) by (apply Z.pow_le_mono_r; lia). lia.
Qed.

Lemma literal_of_pos p :
  Py.literal (NilEmpty.string_of_uint (Pos.to_uint p))
    = if 10 ^ Py.MAX_STR_DIGITS <=? Z.pos p then None else Some (Z.pos p).
Proof.
  unfold Py.literal.
  rewrite digits_of_uint
    by (intros H; now apply Unsigned.to_uint_nonnil in H).
  rewrite Unsigned.of_to, count_digits_uint.
  now rewrite long_numeral by (unfold Py.MAX_STR_DIGITS; lia).
Qed.

Lemma int_of_unsigned u :
  Py.int (NilEmpty.string_of_uint u) = Py.literal (NilEmpty.string_of_uint u).
Proof.
  unfold Py.int. rewrite (strip_no_space _ (no_space_uint u)).
  destruct u; reflexivity.
Qed.

(** Parsing the decimal numeral of an integer gives the integer back, unless
    the numeral has more than [MAX_STR_DIGITS] digits. *)
Lemma int_str n :
  Py.int (Py.str n)
    = if 10 ^ Py.MAX_STR_DIGITS <=? Z.abs n then None else Some n.
Proof.
  unfold Py.str. destruct n as [|p|p]; [reflexivity | |];
    cbn [Z.to_int NilZero.string_of_int Z.abs]; rewrite NilZero_string_of_pos.
  - now rewrite int_of_unsigned, literal_of_pos.
  - unfold Py.int. rewrite strip_no_space by (cbn; apply no_space_uint).
    cbn [append]. rewrite literal_of_pos.
    change (Z.abs (Z.neg p)) with (Z.pos p).
    destruct (10 ^ Py.MAX_STR_DIGITS <=? Z.pos p); reflexivity.
Qed.

(** ** The limit validator, further *)

(** X1. Given the decimal numeral of an integer [v] of at most 4300 digits
    as the raw value, [validate_limit] returns [v] itself when [v] is between
    1 and 100 and fails with [InvalidInput] for every other [v], saying on
    which side of the range [v] lies, whatever the default. A longer numeral,
    which [int] refuses to convert, is reported as not being an integer. *)
Theorem validate_limit_of_numeral (v : Z) (default : option Z) :
  validators.validate_limit (Some (Py.str v)) default
    = if 10 ^ Py.MAX_STR_DIGITS <=? Z.abs v
      then Err (ValueError ("Invalid limit value: " +:+ Py.str v +:+
                            ". Must be an integer."))
      else if (1 <=? v) && (v <=? 100) then Ok v
      else if v <? 1 then Err (ValueError "Limit must be at least 1")
      else Err (ValueError "Limit cannot exceed 100").
Proof.
  unfold validators.validate_limit. rewrite int_str.
  destruct (10 ^ Py.MAX_STR_DIGITS <=? Z.abs v); [reflexivity|].
  unfold Config.MIN_TWEET_LIMIT, Config.MAX_TWEET_LIMIT.
  destruct (Z.ltb_spec v 1), (Z.leb_spec 1 v), (Z.leb_spec v 100),
    (Z.gtb_spec v 100); try lia; reflexivity.
Qed.

(** X2. A raw value that is present decides the outcome alone: the default
    plays no part, and a limit that is returned lies between 1 and 100. Only
    the default, returned for an absent value, is not checked. *)
Theorem validate_limit_present (s : string) (default default' : option Z) :
  validators.validate_limit (Some s) default
    = validators.validate_limit (Some s) default' /\
  match validators.validate_limit (Some s) default with
  | Ok v => 1 <= v <= 100 /\ Py.int s = Some v
  | Err e => exists msg, e = ValueError msg
  end /\
  validators.validate_limit None (Some 500) = Ok 500.
Proof.
  split; [reflexivity|]. split; [|reflexivity].
  unfold validators.validate_limit.
  destruct (Py.int s) as [v|]; [|eauto].
  unfold Config.MIN_TWEET_LIMIT, Config.MAX_TWEET_LIMIT.
  destruct (Z.ltb_spec v 1); [eauto|].
  destruct (Z.gtb_spec v 100); [eauto|]. split; [lia | reflexivity].
Qed.

(** ** Dates of the synthetic backend *)

Lemma month_day_valid n leapyear :
  0 <= n < 365 ->
  let m := Z.shiftr (n + 50) 5 in
  let preceding := Datetime._DAYS_BEFORE_MONTH m + Datetime.b2z ((m >? 2) && leapyear) in
  let md :=
    if preceding >? n
    then (m - 1,
          n - (preceding - (Datetime._DAYS_IN_MONTH (m - 1)
                            + Datetime.b2z ((m - 1 =? 2) && leapyear))) + 1)
    else (m, n - preceding + 1) in
  1 <= fst md <= 12 /\ 1 <= snd md <= 31.
Proof.
  intros Hn. rewrite Z.shiftr_div_pow2 by lia. change (2 ^ 5) with 32.
  assert (Hm : 1 <= (n + 50) / 32 <= 12) by (Z.div_mod_to_equations; lia).
  assert (Hq : 32 * ((n + 50) / 32) <= n + 50 < 32 * ((n + 50) / 32) + 32)
    by (Z.div_mod_to_equations; lia).
  remember ((n + 50) / 32) as m eqn:Em. clear Em.
  assert (Hcases : m = 1 \/ m = 2 \/ m = 3 \/ m = 4 \/ m = 5 \/ m = 6 \/ m = 7 \/
                   m = 8 \/ m = 9 \/ m = 10 \/ m = 11 \/ m = 12) by lia.
  cbv zeta.
  repeat (destruct Hcases as [->|Hcases]); [.. | subst m];
    destruct leapyear;
    repeat match goal with
      | |- context [Datetime._DAYS_BEFORE_MONTH ?x] =>
          let v := eval vm_compute in (Datetime._DAYS_BEFORE_MONTH x) in
          change (Datetime._DAYS_BEFORE_MONTH x) with v
      | |- context [Datetime._DAYS_IN_MONTH ?x] =>
          let v := eval vm_compute in (Datetime._DAYS_IN_MONTH x) in
          change (Datetime._DAYS_IN_MONTH x) with v
      | |- context [Datetime.b2z ?x] =>
          let v := eval vm_compute in (Datetime.b2z x) in
          change (Datetime.b2z x) with v
      end;
    match goal with |- context [?a >? n] => destruct (Z.gtb_spec a n) end;
    cbn [fst snd]; lia.
Qed.

Lemma ord2ymd_valid n :
  1 <= n <= 3652059 ->
  1 <= fst (fst (Datetime._ord2ymd n)) <= 9999 /\
  1 <= snd (fst (Datetime._ord2ymd n)) <= 12 /\
  1 <= snd (Datetime._ord2ymd n) <= 31.
Proof.
  intros Hn. unfold Datetime._ord2ymd. cbv zeta.
  remember ((n - 1) / 146097) as n400 eqn:E400.
  remember ((n - 1) mod 146097) as r1 eqn:Er1.
  remember (r1 / 36524) as n100 eqn:E100.
  remember (r1 mod 36524) as r2 eqn:Er2.
  remember (r2 / 1461) as n4 eqn:E4.
  remember (r2 mod 1461) as r3 eqn:Er3.
  remember (r3 / 365) as n1 eqn:E1.
  remember (r3 mod 365) as r4 eqn:Er4.
  assert (H1 : n - 1 = 146097 * n400 + r1 /\ 0 <= r1 < 146097)
    by (subst n400 r1; Z.div_mod_to_equations; lia).
  assert (H2 : r1 = 36524 * n100 + r2 /\ 0 <= r2 < 36524)
    by (subst n100 r2; Z.div_mod_to_equations; lia).
  assert (H3 : r2 = 1461 * n4 + r3 /\ 0 <= r3 < 1461)
    by (subst n4 r3; Z.div_mod_to_equations; lia).
  assert (H4 : r3 = 365 * n1 + r4 /\ 0 <= r4 < 365)
    by (subst n1 r4; Z.div_mod_to_equations; lia).
  clear E400 Er1 E100 Er2 E4 Er3 E1 Er4.
  destruct (Z.eqb_spec n1 4) as [Hn1|Hn1]; cbn [orb].
  { cbn [fst snd]. lia. }
  destruct (Z.eqb_spec n100 4) as [Hn100|Hn100].
  { cbn [fst snd]. lia. }
  pose proof (month_day_valid r4
                ((n1 =? 3) && (negb (n4 =? 24) || (n100 =? 3)))
                (proj2 H4)) as Hmd.
  cbv zeta in Hmd.
  destruct (_ >? r4); cbn [fst snd] in *; (split; [lia | exact Hmd]).
Qed.

Lemma of_seconds_valid t :
  0 <= t < Datetime.MAX_SECONDS -> valid_datetime (Datetime.of_seconds t).
Proof.
  unfold Datetime.MAX_SECONDS. intros Ht. unfold Datetime.of_seconds.
  assert (Hn : 1 <= t / 86400 + 1 <= 3652059) by (Z.div_mod_to_equations; lia).
  pose proof (ord2ymd_valid _ Hn) as Hv.
  destruct (Datetime._ord2ymd (t / 86400 + 1)) as [[y m] d].
  cbn [fst snd] in Hv. unfold valid_datetime. cbn [year month day hour minute].
  repeat split; try lia; Z.div_mod_to_equations; lia.
Qed.

Lemma returns_and {A} (m : M A) w c c' (P Q : A -> Prop) :
  returns m w c P -> returns m w c' Q -> returns m w c (fun a => P a /\ Q a).
Proof.
  intros (a & w1 & H1 & Hc & Hr & Hd & HP) (a' & w2 & H2 & _ & _ & _ & HQ).
  rewrite H1 in H2. inversion H2; subst a' w2.
  exists a, w1. repeat split; auto.
Qed.

Lemma returns_generate_date_format i w :
  0 <= i -> (forall k, i * 43200 <= clock w k < Datetime.MAX_SECONDS) ->
  returns (TwitterMockService._generate_date i) w 0 display_format.
Proof.
  intros Hi Hclock. specialize (Hclock (ticked w)).
  assert (Hb : (clock w (ticked w) - i * 43200 <? 0) ||
               (Datetime.MAX_SECONDS <=? clock w (ticked w) - i * 43200) = false).
  { apply orb_false_iff. split; [apply Z.ltb_ge | apply Z.leb_gt]; lia. }
  eexists _, _.
  unfold TwitterMockService._generate_date, bind, Datetime.now.
  cbv beta iota. rewrite Hb. unfold ret.
  split; [reflexivity|]. cbn [clock randoms drawn].
  repeat (split; [reflexivity || lia|]).
  apply strftime_display_format, of_seconds_valid. lia.
Qed.

Ltac next_date H Hclock :=
  eapply returns_bind;
  [ apply returns_generate_date_format; [assumption|]; intros ?;
    repeat match goal with E : clock _ = clock _ |- _ => rewrite E; clear E end;
    apply Hclock
  | intros ? ? _ H; cbn beta in H ].

Lemma hashtag_tweet_date key i w :
  0 <= i -> (forall k, i * 43200 <= clock w k < Datetime.MAX_SECONDS) ->
  returns (TwitterMockService.hashtag_tweet key i) w 5
    (fun t => display_format (date t)).
Proof.
  intros Hi Hclock. unfold TwitterMockService.hashtag_tweet.
  change 5%nat with (1 + (1 + (0 + (1 + (1 + (1 + 0))))))%nat.
  next_choice acc Hacc. next_choice base Hbase.
  destruct (if negb _ then _ else _) as [eh tx].
  next_date Hd Hclock.
  next_randint r1 Hr1. next_randint r2 Hr2. next_randint r3 Hr3.
  apply returns_ret. exact Hd.
Qed.

Lemma user_tweet_date acct i w :
  0 <= i -> (forall k, i * 43200 <= clock w k < Datetime.MAX_SECONDS) ->
  returns (TwitterMockService.user_tweet acct i) w 4
    (fun t => display_format (date t)).
Proof.
  intros Hi Hclock. unfold TwitterMockService.user_tweet.
  change 4%nat with (1 + (0 + (1 + (1 + (1 + 0)))))%nat.
  next_choice base Hbase. next_date Hd Hclock.
  next_randint r1 Hr1. next_randint r2 Hr2. next_randint r3 Hr3.
  apply returns_ret. exact Hd.
Qed.

(** ** Words and hashtags *)

Lemma split_aux_words s :
  no_space (fst (Py.split_aux s)) = true /\
  Forall (fun w => w <> EmptyString /\ no_space w = true) (snd (Py.split_aux s)).
Proof.
  induction s as [|c s [IHw IHws]]; cbn [Py.split_aux].
  - split; [reflexivity | constructor].
  - destruct (Py.split_aux s) as [w ws]. cbn [fst snd] in *.
    destruct (Py.isspace c) eqn:Hc; cbn [fst snd].
    + split; [reflexivity|]. destruct w; [exact IHws|].
      constructor; [split; [discriminate | exact IHw] | exact IHws].
    + split; [|exact IHws]. cbn [no_space]. now rewrite Hc, IHw.
Qed.

(** The words [split] returns are not empty and hold no white space. *)
Lemma split_words s :
  Forall (fun w => w <> EmptyString /\ no_space w = true) (Py.split s).
Proof.
  unfold Py.split. pose proof (split_aux_words s) as [Hw Hws].
  destruct (Py.split_aux s) as [w ws]. cbn [fst snd] in *.
  destruct w; [exact Hws|].
  constructor; [split; [discriminate | exact Hw] | exact Hws].
Qed.

Lemma hash_tokens text h :
  In h (List.filter (Py.startswith "#") (Py.split text)) -> hash_token_of text h.
Proof.
  intros H. apply filter_In in H. destruct H as [Hin Hs].
  split; [exact Hin|]. split; [exact Hs|].
  pose proof (split_words text) as Hall.
  rewrite Forall_forall in Hall. now apply Hall, list_elem_of_In.
Qed.

Lemma existing_hashtags_lowercase base x :
  In x (TwitterMockService.existing_hashtags_of base) -> Py.lower x = x.
Proof.
  unfold TwitterMockService.existing_hashtags_of. intros H.
  apply in_map_iff in H. destruct H as (word & <- & _).
  apply lower_idempotent.
Qed.

Lemma tag_forced_lowercase key t :
  Py.lower key = key -> tag_forced key t ->
  Forall lowercase_hashtag (hashtags t).
Proof.
  intros Hkey (base & _ & H). cbn zeta in H.
  assert (Hmap : Forall lowercase_hashtag
            (map (fun tag => "#" +:+ tag)
                 (TwitterMockService.existing_hashtags_of base))).
  { apply Forall_forall. intros h Hh. apply list_elem_of_In, in_map_iff in Hh.
    destruct Hh as (x & <- & Hx). exists x. split; [reflexivity|].
    eapply existing_hashtags_lowercase; eauto. }
  destruct (Py.contains key _); destruct H as [_ ->]; [exact Hmap|].
  constructor; [|exact Hmap]. exists key. auto.
Qed.

(** ** The synthetic backend, further *)

(** X3. Every tweet [get_tweets_by_hashtag] generates is by an account of the
    sample pool, has between 0 and 500 replies, 0 and 1000 retweets and 0 and
    5000 likes, a date in the display format, and only lower-case hashtags;
    the call draws five random numbers a tweet. *)
Theorem hashtag_tweets_well_formed (w : World) (tag : string) (n : Z) :
  tag <> EmptyString -> clock_allows w n ->
  exists tweets w',
    TwitterMockService.get_tweets_by_hashtag tag n w = (Ok tweets, w') /\
    drawn w' = (drawn w + Z.to_nat n * 5)%nat /\
    Forall (fun t =>
              In (account t) TwitterMockService.SAMPLE_ACCOUNTS /\
              metrics_in_range t /\
              display_format (date t) /\
              Forall lowercase_hashtag (hashtags t))
           tweets.
Proof.
  intros Hne Hclock.
  assert (Hdates :
    returns (TwitterMockService.get_tweets_by_hashtag tag n) w (Z.to_nat n * 5)
      (fun tweets => length tweets = Z.to_nat n /\
                     Forall (fun t => display_format (date t)) tweets)).
  { destruct tag as [|c tag]; [congruence|].
    cbn [TwitterMockService.get_tweets_by_hashtag]. unfold for_in_range.
    apply returns_for_range. intros i w' Hc Hi.
    apply hashtag_tweet_date; [lia|]. rewrite Hc.
    eapply clock_allows_index; [exact Hclock | lia]. }
  destruct (returns_and _ _ _ _ _ _
              (returns_get_tweets_by_hashtag tag n w Hne Hclock) Hdates)
    as (tweets & w' & Hrun & _ & _ & Hdrawn & (_ & Hall) & (_ & Hd)).
  exists tweets, w'. split; [exact Hrun|]. split; [exact Hdrawn|].
  rewrite Forall_forall in Hall, Hd. apply Forall_forall. intros t Ht.
  destruct (Hall t Ht) as (Hacc & Hforced & Hm).
  repeat split; try apply Hm; auto.
  eapply tag_forced_lowercase; [|exact Hforced].
  apply lower_idempotent.
Qed.

Lemma hashtag_tweets_well_formed_witness :
  exists tweets w',
    TwitterMockService.get_tweets_by_hashtag "#Rocq" 4 sample_world
      = (Ok tweets, w') /\
    drawn w' = 20%nat /\
    Forall (fun t =>
              In (account t) TwitterMockService.SAMPLE_ACCOUNTS /\
              metrics_in_range t /\
              display_format (date t) /\
              Forall lowercase_hashtag (hashtags t))
           tweets.
Proof.
  apply (hashtag_tweets_well_formed sample_world "#Rocq" 4).
  - discriminate.
  - apply valid_clock_allows; [exact sample_world_valid | lia].
Defined.

(** X4. Every tweet [get_user_tweets] generates has one of the sample texts,
    unchanged, as its text and exactly the words of that text that begin with
    [#] as its hashtags, in the case the text writes them; its counts are in
    the ranges of the generator and its date is in the display format. *)
Theorem user_tweets_well_formed (w : World) (handle : string) (n : Z) :
  handle <> EmptyString -> clock_allows w n ->
  exists tweets w',
    TwitterMockService.get_user_tweets handle n w = (Ok tweets, w') /\
    Forall (fun t =>
              In (text t) TwitterMockService.SAMPLE_TEXTS /\
              hashtags t = List.filter (Py.startswith "#") (Py.split (text t)) /\
              Forall (hash_token_of (text t)) (hashtags t) /\
              metrics_in_range t /\
              display_format (date t))
           tweets.
Proof.
  intros Hne Hclock. destruct handle as [|c handle]; [congruence|].
  cbn [TwitterMockService.get_user_tweets].
  set (u := TwitterMockService.normalize_username (String c handle)).
  destruct (returns_resolve_account u w) as (acct & w1 & Hr & Hc1 & _).
  assert (Hloop :
    returns (for_in_range n (TwitterMockService.user_tweet acct)) w1
      (Z.to_nat n * 4)
      (fun tweets =>
         length tweets = Z.to_nat n /\
         Forall (fun t =>
                   (account t = acct /\
                    (exists base_text,
                        In base_text TwitterMockService.SAMPLE_TEXTS /\
                        text t = base_text /\
                        hashtags t =
                          List.filter (Py.startswith "#") (Py.split base_text)) /\
                    metrics_in_range t) /\
                   display_format (date t)) tweets)).
  { unfold for_in_range. apply returns_for_range. intros i w2 Hc2 Hi.
    assert (Hck : forall k, i * 43200 <= clock w2 k < Datetime.MAX_SECONDS).
    { rewrite Hc2, Hc1. eapply clock_allows_index; [exact Hclock | lia]. }
    eapply returns_and;
      [apply returns_user_tweet | apply user_tweet_date]; solve [lia | exact Hck]. }
  destruct Hloop as (tweets & w' & Hrun & _ & _ & _ & _ & Hall).
  exists tweets, w'. split.
  { unfold bind. now rewrite Hr. }
  eapply Forall_impl; [exact Hall|]. cbn beta.
  intros t ((_ & (base & Hin & Htext & Hh) & Hm) & Hd). subst base.
  repeat split; try apply Hm; auto.
  rewrite Hh. apply Forall_forall. intros h Hin'.
  now apply hash_tokens, list_elem_of_In.
Qed.

Lemma user_tweets_well_formed_witness :
  exists tweets w',
    TwitterMockService.get_user_tweets "@gvanrossum" 3 sample_world
      = (Ok tweets, w') /\
    Forall (fun t =>
              In (text t) TwitterMockService.SAMPLE_TEXTS /\
              hashtags t = List.filter (Py.startswith "#") (Py.split (text t)) /\
              Forall (hash_token_of (text t)) (hashtags t) /\
              metrics_in_range t /\
              display_format (date t))
           tweets.
Proof.
  apply (user_tweets_well_formed sample_world "@gvanrossum" 3).
  - discriminate.
  - apply valid_clock_allows; [exact sample_world_valid | lia].
Defined.

(** ** The upstream backend: payloads, further *)

Lemma traverse_Forall2 {A B} (f : A -> result B) xs ys :
  traverse f xs = Ok ys -> Forall2 (fun x y => f x = Ok y) xs ys.
Proof.
  revert ys. induction xs as [|x xs IH]; intros ys H; cbn in H.
  - inversion H. constructor.
  - destruct (f x) as [y|] eqn:Hx; [|discriminate]. cbn in H.
    destruct (traverse f xs) as [ys'|]; [|discriminate]. cbn in H.
    inversion H; subst ys. constructor; auto.
Qed.

Lemma traverse_outcome {A B} (f : A -> result B) (ok : A -> bool) xs :
  (forall x, match f x with
             | Ok _ => ok x = true
             | Err (ValueError _) => ok x = false
             | Err _ => False
             end) ->
  match traverse f xs with
  | Ok _ => forallb ok xs = true
  | Err (ValueError _) => forallb ok xs = false
  | Err _ => False
  end.
Proof.
  intros Hf. induction xs as [|x xs IH]; cbn; [reflexivity|].
  specialize (Hf x). destruct (f x) as [y|e]; cbn.
  - rewrite Hf. destruct (traverse f xs) as [ys|e]; cbn; exact IH.
  - destruct e; try contradiction. now rewrite Hf.
Qed.

Lemma find_append {A} (f : A -> bool) l1 l2 :
  find f (l1 ++ l2) = match find f l1 with
                      | Some x => Some x
                      | None => find f l2
                      end.
Proof.
  induction l1 as [|x l1 IH]; cbn; [reflexivity|]. now destruct (f x).
Qed.

Lemma fold_add_user_err us e :
  fold_left TwitterAPIService.add_user us (Err e) = Err e.
Proof. induction us as [|u us IH]; cbn; auto. Qed.

(** The lookup table of the authors: it is built when every user has an
    [id], a later user replacing an earlier one with the same [id]. *)
Lemma fold_add_user us : forall m,
  match fold_left TwitterAPIService.add_user us (Ok m) with
  | Ok m' =>
      forallb (fun u => match user_id u with Some _ => true | None => false end)
              us = true /\
      forall a, m' !! a = match last_with_id us a with
                          | Some u => Some u
                          | None => m !! a
                          end
  | Err e =>
      e = KeyError "id" /\
      forallb (fun u => match user_id u with Some _ => true | None => false end)
              us = false
  end.
Proof.
  induction us as [|u us IH]; intros m; cbn [fold_left forallb].
  - split; [reflexivity|]. intros a. reflexivity.
  - unfold TwitterAPIService.add_user at 2. cbn [rbind].
    destruct (user_id u) as [uid|] eqn:Hid.
    + specialize (IH (<[uid := u]> m)).
      destruct (fold_left _ us _) as [m'|e]; cbn [andb].
      * destruct IH as [Hall Hlook]. split; [exact Hall|]. intros a.
        rewrite Hlook. unfold last_with_id. cbn [rev].
        rewrite find_append.
        destruct (find _ (rev us)) as [u'|]; [reflexivity|].
        cbn [find]. rewrite Hid.
        destruct (String.eqb_spec uid a) as [->|Hne].
        -- apply lookup_insert_eq.
        -- now apply lookup_insert_ne.
      * exact IH.
    + rewrite fold_add_user_err. now split.
Qed.

Lemma build_users_spec data :
  match TwitterAPIService.build_users data with
  | Ok m => users_have_ids data = true /\
            forall a, m !! a = last_with_id (users_of data) a
  | Err e => e = KeyError "id" /\ users_have_ids data = false
  end.
Proof.
  unfold TwitterAPIService.build_users, users_have_ids, users_of.
  destruct (p_includes data) as [[[us|]]|]; cbn [inc_users];
    try (split; [reflexivity | intros a; apply lookup_empty]).
  pose proof (fold_add_user us ∅) as H.
  destruct (fold_left _ us _) as [m|e]; [|exact H].
  destruct H as [Hall Hlook]. split; [exact Hall|]. intros a.
  rewrite Hlook. destruct (last_with_id us a); [reflexivity|].
  apply lookup_empty.
Qed.

Lemma account_id_outcome a :
  match TwitterAPIService.account_id a with
  | Ok _ => True
  | Err (ValueError _) => True
  | Err _ => False
  end.
Proof.
  unfold TwitterAPIService.account_id.
  destruct a as [[|c a]|]; try exact I. destruct (Py.int _); exact I.
Qed.

Lemma parse_tweet_outcome users td :
  match TwitterAPIService.parse_tweet users td with
  | Ok _ => author_id_ok td = true
  | Err (ValueError _) => author_id_ok td = false
  | Err _ => False
  end.
Proof.
  unfold TwitterAPIService.parse_tweet, author_id_ok,
    TwitterAPIService.account_id.
  destruct (format_date_returns
              (TwitterAPIService.get (td_created_at td) EmptyString)) as [d Hd].
  destruct (td_author_id td) as [[|c a]|]; cbn [rbind]; rewrite ?Hd;
    try reflexivity.
  destruct (Py.int (String c a)); cbn [rbind]; rewrite ?Hd; reflexivity.
Qed.

(** The fields of a parsed tweet, one by one. *)
Lemma parse_tweet_fields users td t :
  TwitterAPIService.parse_tweet users td = Ok t ->
  let author := TwitterAPIService.author_info_of users (td_author_id td) in
  fullname (account t) = TwitterAPIService.get (user_name author) "Unknown" /\
  href (account t) = "/" +:+ TwitterAPIService.get (user_username author) "unknown" /\
  TwitterAPIService.account_id (td_author_id td) = Ok (id (account t)) /\
  text t = TwitterAPIService.get (td_text td) EmptyString /\
  hashtags t = List.filter (Py.startswith "#") (Py.split (text t)) /\
  TwitterAPIService._format_date
    (TwitterAPIService.get (td_created_at td) EmptyString) = Ok (date t).
Proof.
  unfold TwitterAPIService.parse_tweet, rbind.
  destruct (TwitterAPIService.account_id _) as [aid|]; [|discriminate].
  destruct (TwitterAPIService._format_date _) as [d|]; [|discriminate].
  intros H. inversion H; subst t; clear H. cbn. repeat split.
Qed.

(** X5. [_parse_tweets_response] returns the empty list for a payload with
    no [data], whatever else it holds. With [data] it returns one tweet an
    item exactly when every user of the expansion has an [id] and every
    [author_id] is absent, empty or an integer numeral; it raises
    [KeyError] for a user without [id], [ValueError] for another [author_id],
    and nothing else. *)
Theorem parse_response_outcome (data : tweets_payload) :
  match p_data data with
  | None => TwitterAPIService._parse_tweets_response data = Ok []
  | Some items =>
      match TwitterAPIService._parse_tweets_response data with
      | Ok tweets =>
          users_have_ids data = true /\
          forallb author_id_ok items = true /\
          length tweets = length items
      | Err (KeyError key) => key = "id" /\ users_have_ids data = false
      | Err (ValueError _) =>
          users_have_ids data = true /\ forallb author_id_ok items = false
      | Err _ => False
      end
  end.
Proof.
  unfold TwitterAPIService._parse_tweets_response.
  destruct (p_data data) as [items|]; [|reflexivity].
  pose proof (build_users_spec data) as Hu.
  destruct (TwitterAPIService.build_users data) as [users|e]; cbn [rbind].
  - destruct Hu as [Hids _].
    pose proof (traverse_outcome (TwitterAPIService.parse_tweet users)
                  author_id_ok items (parse_tweet_outcome users)) as Ht.
    destruct (traverse _ items) as [tweets|e] eqn:Htr.
    + repeat split; auto. apply traverse_Forall2 in Htr.
      symmetry. eapply Forall2_length; eauto.
    + destruct e; try contradiction. auto.
  - destruct Hu as [-> Hids]. auto.
Qed.

(** X6. When [_parse_tweets_response] returns, the tweets follow the items
    of [data] in order, and each tweet has the text of its item (empty when
    the item has none), the words of that text that begin with [#] as its
    hashtags, the counts of the item's metrics (0 when absent) and the
    formatted [created_at] as its date. *)
Theorem parse_response_items (data : tweets_payload) items tweets :
  p_data data = Some items ->
  TwitterAPIService._parse_tweets_response data = Ok tweets ->
  Forall2 (fun td t =>
             text t = TwitterAPIService.get (td_text td) EmptyString /\
             hashtags t = List.filter (Py.startswith "#") (Py.split (text t)) /\
             Forall (hash_token_of (text t)) (hashtags t) /\
             replies t = count_of reply_count (td_public_metrics td) /\
             retweets t = count_of retweet_count (td_public_metrics td) /\
             likes t = count_of like_count (td_public_metrics td) /\
             TwitterAPIService._format_date
               (TwitterAPIService.get (td_created_at td) EmptyString)
               = Ok (date t))
          items tweets.
Proof.
  unfold TwitterAPIService._parse_tweets_response. intros -> H.
  destruct (TwitterAPIService.build_users data) as [users|]; [|discriminate].
  cbn [rbind] in H. apply traverse_Forall2 in H.
  eapply Forall2_impl; [exact H|]. cbn beta. intros td t Ht.
  pose proof (parse_tweet_counts _ _ _ Ht) as (Hr & Hrt & Hl).
  pose proof (parse_tweet_fields _ _ _ Ht) as (_ & _ & _ & Htext & Hh & Hd).
  repeat split; auto.
  rewrite Hh. apply Forall_forall. intros h Hin.
  now apply hash_tokens, list_elem_of_In.
Qed.

Lemma parse_response_items_witness :
  Forall2 (fun td t =>
             text t = TwitterAPIService.get (td_text td) EmptyString /\
             hashtags t = List.filter (Py.startswith "#") (Py.split (text t)) /\
             Forall (hash_token_of (text t)) (hashtags t) /\
             replies t = count_of reply_count (td_public_metrics td) /\
             retweets t = count_of retweet_count (td_public_metrics td) /\
             likes t = count_of like_count (td_public_metrics td) /\
             TwitterAPIService._format_date
               (TwitterAPIService.get (td_created_at td) EmptyString)
               = Ok (date t))
          [mkTweetData (Some "987654321") (Some "This is a test tweet #python")
                       (Some "2023-03-15T14:30:00.000Z") None]
          [mkTweet (mkAccount "Test User" "/testuser" 987654321)
                   "2:30 PM - 15 Mar 2023" "This is a test tweet #python"
                   0 0 0 ["#python"]].
Proof.
  apply (parse_response_items
           (test_response (Some "2023-03-15T14:30:00.000Z") (Some "testuser") None)).
  - reflexivity.
  - vm_compute. reflexivity.
Defined.

(** X7. The author of a parsed tweet is looked up by the item's [author_id]
    among the users of the expansion, the last one when several share the
    [id]: the account has that user's [name] and ["/" + username]. An
    [author_id] that no user has gives the account ["Unknown"], ["/unknown"];
    an item without [author_id] gives that account with the id 0. *)
Theorem parse_response_authors (data : tweets_payload) items tweets :
  p_data data = Some items ->
  TwitterAPIService._parse_tweets_response data = Ok tweets ->
  Forall2 (fun td t =>
             TwitterAPIService.account_id (td_author_id td)
               = Ok (id (account t)) /\
             match td_author_id td with
             | Some a =>
                 match last_with_id (users_of data) a with
                 | Some u =>
                     fullname (account t)
                       = TwitterAPIService.get (user_name u) "Unknown" /\
                     href (account t)
                       = "/" +:+ TwitterAPIService.get (user_username u) "unknown"
                 | None => unknown_author t
                 end
             | None => account t = mkAccount "Unknown" "/unknown" 0
             end)
          items tweets.
Proof.
  unfold TwitterAPIService._parse_tweets_response. intros -> H.
  pose proof (build_users_spec data) as Hu.
  destruct (TwitterAPIService.build_users data) as [users|]; [|discriminate].
  destruct Hu as [_ Hlook].
  cbn [rbind] in H. apply traverse_Forall2 in H.
  eapply Forall2_impl; [exact H|]. cbn beta. intros td t Ht.
  pose proof (parse_tweet_fields _ _ _ Ht) as (Hn & Hh & Hid & _).
  cbv zeta in Hn, Hh. unfold TwitterAPIService.author_info_of in Hn, Hh.
  split; [exact Hid|].
  destruct (td_author_id td) as [a|].
  - rewrite Hlook in Hn, Hh.
    destruct (last_with_id (users_of data) a); [now split|].
    split; [exact Hn | exact Hh].
  - cbn in Hn, Hh, Hid. inversion Hid as [Hid'].
    destruct t as [[fn hr i] ? ? ? ? ? ?]. cbn in *. now subst.
Qed.

Lemma parse_response_authors_witness :
  Forall2 (fun td t =>
             TwitterAPIService.account_id (td_author_id td)
               = Ok (id (account t)) /\
             match td_author_id td with
             | Some a =>
                 match last_with_id
                         [mkUser (Some "7") (Some "Old Name") (Some "old");
                          mkUser (Some "7") (Some "New Name") None] a with
                 | Some u =>
                     fullname (account t)
                       = TwitterAPIService.get (user_name u) "Unknown" /\
                     href (account t)
                       = "/" +:+ TwitterAPIService.get (user_username u) "unknown"
                 | None => unknown_author t
                 end
             | None => account t = mkAccount "Unknown" "/unknown" 0
             end)
          [mkTweetData (Some "7") (Some "one") None None;
           mkTweetData (Some "8") (Some "two") None None;
           mkTweetData None (Some "three") None None]
          [mkTweet (mkAccount "New Name" "/unknown" 7) EmptyString "one" 0 0 0 [];
           mkTweet (mkAccount "Unknown" "/unknown" 8) EmptyString "two" 0 0 0 [];
           mkTweet (mkAccount "Unknown" "/unknown" 0) EmptyString "three" 0 0 0 []].
Proof.
  apply (parse_response_authors
           (mkPayload
              (Some [mkTweetData (Some "7") (Some "one") None None;
                     mkTweetData (Some "8") (Some "two") None None;
                     mkTweetData None (Some "three") None None])
              (Some (mkIncludes
                       (Some [mkUser (Some "7") (Some "Old Name") (Some "old");
                              mkUser (Some "7") (Some "New Name") None]))))).
  - reflexivity.
  - vm_compute. reflexivity.
Defined.

(** ** The upstream backend: requests and failures *)


(** The successful runs of the upstream backend's [get_user_tweets]. *)
Lemma api_user_tweets_ok api username limit tweets :
  TwitterAPIService.get_user_tweets api username limit = Ok tweets ->
  username <> EmptyString /\
  exists body user uid payload,
    delivers (user_by_username api (Py.lstrip "@" username)) body /\
    up_data body = Some user /\ user_id user = Some uid /\
    delivers (user_tweets api uid (Z.min limit 100)) payload /\
    TwitterAPIService._parse_tweets_response
      (match p_data payload with
       | Some _ => mkPayload (p_data payload) (Some (mkIncludes (Some [user])))
       | None => payload
       end) = Ok tweets.
Proof.
  destruct username as [|c username]; [discriminate|].
  cbn [TwitterAPIService.get_user_tweets].
  unfold TwitterAPIService.normalize_username.
  set (r1 := user_by_username api _).
  pose proof (receive_spec TwitterAPIService._handle_api_errors r1
                (or_introl eq_refl)) as H1.
  destruct (TwitterAPIService.receive _ r1) as [body|]; [|discriminate].
  cbn [rbind]. destruct (up_data body) as [user|] eqn:Hdata; [|discriminate].
  destruct (user_id user) as [uid|] eqn:Hid; [|discriminate].
  set (r2 := user_tweets api uid _).
  pose proof (receive_spec TwitterAPIService._handle_api_errors r2
                (or_introl eq_refl)) as H2.
  destruct (TwitterAPIService.receive _ r2) as [payload|]; [|discriminate].
  cbn [rbind]. intros H. split; [discriminate|].
  exists body, user, uid, payload. auto.
Qed.

(** X9. The tweets of the upstream backend's [get_user_tweets] carry the
    user that the first request resolved only where the item names that user
    as its [author_id]; an item with another [author_id] gets the account
    ["Unknown"], ["/unknown"], and an item without [author_id] gets that
    account with the id 0. The expansion of the second payload plays no
    part. *)
Theorem api_user_tweets_authors
  (api : Upstream) (username : string) (limit : Z) (tweets : list Tweet) :
  TwitterAPIService.get_user_tweets api username limit = Ok tweets ->
  exists body user uid payload,
    delivers (user_by_username api (Py.lstrip "@" username)) body /\
    up_data body = Some user /\ user_id user = Some uid /\
    delivers (user_tweets api uid (Z.min limit 100)) payload /\
    match p_data payload with
    | None => tweets = []
    | Some items =>
        Forall2 (fun td t =>
                   match td_author_id td with
                   | Some a =>
                       if String.eqb uid a
                       then fullname (account t)
                              = TwitterAPIService.get (user_name user) "Unknown" /\
                            href (account t)
                              = "/" +:+ TwitterAPIService.get (user_username user)
                                          "unknown"
                       else unknown_author t
                   | None => account t = mkAccount "Unknown" "/unknown" 0
                   end)
                items tweets
    end.
Proof.
  intros H. apply api_user_tweets_ok in H.
  destruct H as (_ & body & user & uid & payload & H1 & Hdata & Hid & H2 & Hp).
  exists body, user, uid, payload. repeat (split; [assumption|]).
  destruct (p_data payload) as [items|] eqn:Hitems.
  - pose proof (parse_response_authors
                  (mkPayload (Some items) (Some (mkIncludes (Some [user]))))
                  items tweets eq_refl Hp) as Hall.
    eapply Forall2_impl; [exact Hall|]. cbn beta. intros td t [_ Ht].
    destruct (td_author_id td) as [a|]; [|exact Ht].
    unfold last_with_id, users_of in Ht. cbn in Ht. rewrite Hid in Ht.
    destruct (String.eqb uid a); exact Ht.
  - pose proof (parse_response_outcome payload) as Hnone.
    rewrite Hitems in Hnone. congruence.
Qed.

(** An upstream for the example of X9: the handle resolves to the user 12,
    and the timeline holds one item without [author_id], as the request (which
    asks for the fields [created_at], [public_metrics] and [text]) gets it,
    and one that names its author. *)
Lemma api_user_tweets_authors_witness :
  exists body user uid payload,
    delivers (Response 200 (Some (mkUserPayload
                (Some (mkUser (Some "12") (Some "Jack") (Some "jack")))))) body /\
    up_data body = Some user /\ user_id user = Some uid /\
    delivers (Response 200 (Some (mkPayload
                (Some [mkTweetData None (Some "just setting up") None None;
                       mkTweetData (Some "12") (Some "hello") None None])
                None))) payload /\
    match p_data payload with
    | None => [mkTweet (mkAccount "Unknown" "/unknown" 0) EmptyString
                 "just setting up" 0 0 0 [];
               mkTweet (mkAccount "Jack" "/jack" 12) EmptyString
                 "hello" 0 0 0 []] = []
    | Some items =>
        Forall2 (fun td t =>
                   match td_author_id td with
                   | Some a =>
                       if String.eqb uid a
                       then fullname (account t)
                              = TwitterAPIService.get (user_name user) "Unknown" /\
                            href (account t)
                              = "/" +:+ TwitterAPIService.get (user_username user)
                                          "unknown"
                       else unknown_author t
                   | None => account t = mkAccount "Unknown" "/unknown" 0
                   end)
                items
                [mkTweet (mkAccount "Unknown" "/unknown" 0) EmptyString
                   "just setting up" 0 0 0 [];
                 mkTweet (mkAccount "Jack" "/jack" 12) EmptyString
                   "hello" 0 0 0 []]
    end.
Proof.
  apply (api_user_tweets_authors
           (mkUpstream
              (fun _ _ => RequestException "unused")
              (fun _ => Response 200 (Some (mkUserPayload
                          (Some (mkUser (Some "12") (Some "Jack") (Some "jack"))))))
              (fun _ _ => Response 200 (Some (mkPayload
                 (Some [mkTweetData None (Some "just setting up") None None;
                        mkTweetData (Some "12") (Some "hello") None None])
                 None))))
           "@jack" 30).
  vm_compute. reflexivity.
Defined.

(** The failures of the upstream backend's [get_user_tweets], by cause. *)
Lemma api_user_tweets_failures (api : Upstream) (username : string) (limit : Z) :
  let u := Py.lstrip "@" username in
  let r1 := user_by_username api u in
  match TwitterAPIService.get_user_tweets api username limit with
  | Ok _ => username <> EmptyString /\ exists body, delivers r1 body
  | Err (RuntimeError msg) =>
      username <> EmptyString /\
      (transport_failed r1 \/
       (exists body, delivers r1 body /\ up_data body = None /\
                     msg = "User '" +:+ u +:+ "' not found") \/
       (exists body user uid,
           delivers r1 body /\ up_data body = Some user /\
           user_id user = Some uid /\
           transport_failed (user_tweets api uid (Z.min limit 100))))
  | Err (ValueError msg) =>
      (username = EmptyString /\ msg = "Username cannot be empty") \/
      (username <> EmptyString /\
       exists body user uid payload items,
         delivers r1 body /\ up_data body = Some user /\
         user_id user = Some uid /\
         delivers (user_tweets api uid (Z.min limit 100)) payload /\
         p_data payload = Some items /\ forallb author_id_ok items = false)
  | Err (KeyError key) =>
      key = "id" /\ username <> EmptyString /\
      exists body user,
        delivers r1 body /\ up_data body = Some user /\ user_id user = None
  | Err _ => False
  end.
Proof.
  cbv zeta. destruct username as [|c username]; [left; split; reflexivity|].
  cbn [TwitterAPIService.get_user_tweets].
  unfold TwitterAPIService.normalize_username.
  set (u := Py.lstrip "@" (String c username)).
  set (r1 := user_by_username api u).
  assert (Hne : String c username <> EmptyString) by discriminate.
  pose proof (receive_spec TwitterAPIService._handle_api_errors r1
                (or_introl eq_refl)) as H1.
  destruct (TwitterAPIService.receive _ r1) as [body|e]; cbn [rbind];
    [|destruct H1 as [Hfail [msg ->]]; split; [exact Hne | left; exact Hfail]].
  destruct (up_data body) as [user|] eqn:Hdata;
    [|split; [exact Hne | right; left; exists body; auto]].
  destruct (user_id user) as [uid|] eqn:Hid;
    [|split; [reflexivity | split; [exact Hne | exists body, user; auto]]].
  set (r2 := user_tweets api uid _).
  pose proof (receive_spec TwitterAPIService._handle_api_errors r2
                (or_introl eq_refl)) as H2.
  destruct (TwitterAPIService.receive _ r2) as [payload|e]; cbn [rbind];
    [|destruct H2 as [Hfail [msg ->]]; split;
      [exact Hne | right; right; exists body, user, uid; auto]].
  destruct (p_data payload) as [items|] eqn:Hitems.
  - pose proof (parse_response_outcome
                  (mkPayload (Some items) (Some (mkIncludes (Some [user])))))
      as Hp.
    cbn [p_data] in Hp.
    destruct (TwitterAPIService._parse_tweets_response _) as [tweets|[]];
      try contradiction.
    + split; [exact Hne | exists body; exact H1].
    + right. split; [exact Hne|]. exists body, user, uid, payload, items.
      destruct Hp as [_ Hp]. repeat (split; [assumption|]). exact Hp.
    + destruct Hp as [_ Hp]. unfold users_have_ids, users_of in Hp.
      cbn in Hp. rewrite Hid in Hp. discriminate.
  - pose proof (parse_response_outcome payload) as Hp. rewrite Hitems in Hp.
    rewrite Hp. split; [exact Hne | exists body; exact H1].
Qed.

(** X10. The outcomes of the upstream backend's [get_user_tweets], by cause.
    It returns tweets exactly when the handle is not empty, the first request
    delivers a user with an [id], the request for the timeline of that [id],
    for [min(limit, 100)] results, delivers a payload, and that payload, with
    the user as its expansion, parses to those tweets. Its failures are an
    empty handle ([ValueError]), a failed request or a handle the upstream
    does not know ([RuntimeError], for the latter ["User '<handle>' not
    found"]), a resolved user without [id] ([KeyError]), and a timeline item
    whose [author_id] is not an integer numeral ([ValueError]). The timeline
    is requested only after the handle has resolved. *)
Theorem api_user_outcomes (api : Upstream) (username : string) (limit : Z) :
  let u := Py.lstrip "@" username in
  let r1 := user_by_username api u in
  match TwitterAPIService.get_user_tweets api username limit with
  | Ok tweets =>
      username <> EmptyString /\
      exists body user uid payload,
        delivers r1 body /\ up_data body = Some user /\
        user_id user = Some uid /\
        delivers (user_tweets api uid (Z.min limit 100)) payload /\
        TwitterAPIService._parse_tweets_response (with_author user payload)
          = Ok tweets
  | Err (RuntimeError msg) =>
      username <> EmptyString /\
      (transport_failed r1 \/
       (exists body, delivers r1 body /\ up_data body = None /\
                     msg = "User '" +:+ u +:+ "' not found") \/
       (exists body user uid,
           delivers r1 body /\ up_data body = Some user /\
           user_id user = Some uid /\
           transport_failed (user_tweets api uid (Z.min limit 100))))
  | Err (ValueError msg) =>
      (username = EmptyString /\ msg = "Username cannot be empty") \/
      (username <> EmptyString /\
       exists body user uid payload items,
         delivers r1 body /\ up_data body = Some user /\
         user_id user = Some uid /\
         delivers (user_tweets api uid (Z.min limit 100)) payload /\
         p_data payload = Some items /\ forallb author_id_ok items = false)
  | Err (KeyError key) =>
      key = "id" /\ username <> EmptyString /\
      exists body user,
        delivers r1 body /\ up_data body = Some user /\ user_id user = None
  | Err _ => False
  end.
Proof.
  cbv zeta.
  pose proof (api_user_tweets_failures api username limit) as Hfail.
  cbv zeta in Hfail.
  destruct (TwitterAPIService.get_user_tweets api username limit)
    as [tweets|e] eqn:Hrun; [|exact Hfail].
  exact (api_user_tweets_ok api username limit tweets Hrun).
Qed.

(** ** The upstream backend: dates, further *)

Lemma digit_not_marker c :
  Py.isdigit c = true ->
  Ascii.eqb c "Z" = false /\ Ascii.eqb c "+" = false /\ Ascii.eqb c "-" = false.
Proof.
  destruct c as [[] [] [] [] [] [] [] []]; vm_compute; intros H;
    first [discriminate H | repeat split].
Qed.

Lemma replace_digit c s :
  Py.isdigit c = true ->
  Py.replace "Z" "+00:00" (String c s) = String c (Py.replace "Z" "+00:00" s).
Proof.
  intros H. cbn [Py.replace]. now destruct (digit_not_marker c H) as (-> & _).
Qed.

Lemma cut_zone_skip c s :
  Ascii.eqb c "+" = false /\ Ascii.eqb c "-" = false ->
  Iso.cut_zone (String c s)
    = (String c (fst (Iso.cut_zone s)), snd (Iso.cut_zone s)).
Proof.
  intros [Hp Hm]. cbn [Iso.cut_zone]. rewrite Hp, Hm.
  now destruct (Iso.cut_zone s).
Qed.

Lemma digit_not_sign c :
  Py.isdigit c = true -> Ascii.eqb c "+" = false /\ Ascii.eqb c "-" = false.
Proof. intros H. now destruct (digit_not_marker c H) as (_ & ? & ?). Qed.

Lemma take_two a b s :
  Py.isdigit a = true -> Py.isdigit b = true ->
  Iso.take_digits 2 0 (String a (String b s)) = Some (two a b, s).
Proof.
  intros Ha Hb. cbn [Iso.take_digits]. rewrite Ha, Hb. unfold two.
  match goal with
  | |- Some (?x, ?r) = Some (?y, ?r) => replace x with y by lia; reflexivity
  end.
Qed.

Lemma take_three a b c :
  Py.isdigit a = true -> Py.isdigit b = true -> Py.isdigit c = true ->
  Iso.take_digits 3 0 (String a (String b (String c EmptyString)))
    = Some (10 * two a b + Py.digit_value c, EmptyString).
Proof.
  intros Ha Hb Hc. cbn [Iso.take_digits]. rewrite Ha, Hb, Hc. unfold two.
  match goal with
  | |- Some (?x, ?r) = Some (?y, ?r) => replace x with y by lia; reflexivity
  end.
Qed.

Lemma take_four a b c d s :
  Py.isdigit a = true -> Py.isdigit b = true ->
  Py.isdigit c = true -> Py.isdigit d = true ->
  Iso.take_digits 4 0 (String a (String b (String c (String d s))))
    = Some (100 * two a b + two c d, s).
Proof.
  intros Ha Hb Hc Hd. cbn [Iso.take_digits]. rewrite Ha, Hb, Hc, Hd. unfold two.
  match goal with
  | |- Some (?x, ?r) = Some (?y, ?r) => replace x with y by lia; reflexivity
  end.
Qed.

(** X11. A timestamp as the upstream writes it, [YYYY-MM-DDTHH:MM:SS.fffZ]
    with digits that make a date of the calendar and a time of the day, is
    rendered from exactly those fields: the hour on the 12-hour clock with
    [AM] or [PM], the minute, the day, the month's name and the year, with no
    conversion to another time zone. *)
Theorem format_date_of_timestamp
  (y1 y2 y3 y4 m1 m2 d1 d2 h1 h2 n1 n2 s1 s2 f1 f2 f3 : ascii) :
  forallb Py.isdigit [y1; y2; y3; y4; m1; m2; d1; d2; h1; h2; n1; n2; s1; s2;
                      f1; f2; f3] = true ->
  Iso.valid_date (100 * two y1 y2 + two y3 y4) (two m1 m2) (two d1 d2) = true ->
  Iso.valid_time (two h1 h2) (two n1 n2) (two s1 s2) = true ->
  TwitterAPIService._format_date
    (upstream_timestamp y1 y2 y3 y4 m1 m2 d1 d2 h1 h2 n1 n2 s1 s2 f1 f2 f3)
  = Ok (Datetime.strftime_display
          (mkDatetime (100 * two y1 y2 + two y3 y4) (two m1 m2) (two d1 d2)
             (two h1 h2) (two n1 n2) (two s1 s2)
             ((10 * two f1 f2 + Py.digit_value f3) * 1000) (Some 0))).
Proof.
  intros Hdigits Hdate Htime.
  cbn [forallb] in Hdigits.
  repeat (apply andb_true_iff in Hdigits; destruct Hdigits as [? Hdigits]).
  clear Hdigits.
  assert (Hparse :
    Iso.parse (Py.replace "Z" "+00:00"
      (upstream_timestamp y1 y2 y3 y4 m1 m2 d1 d2 h1 h2 n1 n2 s1 s2 f1 f2 f3))
    = Some (mkDatetime (100 * two y1 y2 + two y3 y4) (two m1 m2) (two d1 d2)
              (two h1 h2) (two n1 n2) (two s1 s2)
              ((10 * two f1 f2 + Py.digit_value f3) * 1000) (Some 0))).
  { unfold upstream_timestamp.
    repeat first
      [ rewrite replace_digit by assumption
      | match goal with
        | |- context [Py.replace "Z" "+00:00" (String ?c ?s)] =>
            progress change (Py.replace "Z" "+00:00" (String c s))
              with (String c (Py.replace "Z" "+00:00" s))
        end ].
    change (Py.replace "Z" "+00:00" (String "Z" EmptyString)) with "+00:00".
    unfold Iso.parse.
    rewrite take_four by assumption. cbn [Iso.expect Ascii.eqb Bool.eqb].
    rewrite take_two by assumption. cbn [Iso.expect Ascii.eqb Bool.eqb].
    rewrite take_two by assumption. rewrite Hdate. cbn [negb].
    repeat rewrite cut_zone_skip
      by first [split; reflexivity | apply digit_not_sign; assumption].
    change (Iso.cut_zone "+00:00") with (EmptyString, Some (1, "00:00")).
    cbn [fst snd].
    unfold Iso.parse_hh_mm_ss_ff.
    rewrite take_two by assumption. cbn [Ascii.eqb Bool.eqb negb].
    rewrite take_two by assumption. cbn [Ascii.eqb Bool.eqb negb].
    rewrite take_two by assumption. cbn [Ascii.eqb Bool.eqb negb].
    unfold Iso.parse_fraction. cbn [String.length].
    rewrite take_three by assumption.
    rewrite Htime. cbn [negb].
    reflexivity. }
  unfold TwitterAPIService._format_date, Iso.fromisoformat.
  now rewrite Hparse.
Qed.

Lemma format_date_of_timestamp_witness :
  TwitterAPIService._format_date "2023-03-15T14:30:00.000Z"
    = Ok "2:30 PM - 15 Mar 2023".
Proof.
  apply (format_date_of_timestamp "2" "0" "2" "3" "0" "3" "1" "5" "1" "4"
           "3" "0" "0" "0" "0" "0" "0"); reflexivity.
Defined.

Lemma display_not_iso h rest :
  1 <= h <= 12 ->
  Iso.parse (Py.replace "Z" "+00:00" (Py.str h +:+ ":" +:+ rest)) = None.
Proof.
  intros Hh.
  assert (Hcases : h = 1 \/ h = 2 \/ h = 3 \/ h = 4 \/ h = 5 \/ h = 6 \/ h = 7 \/
                   h = 8 \/ h = 9 \/ h = 10 \/ h = 11 \/ h = 12) by lia.
  repeat (destruct Hcases as [->|Hcases]; [reflexivity|]).
  subst h. reflexivity.
Qed.

(** X12. [_format_date] leaves its own results alone: a date it has
    formatted is no ISO-8601 value, and a string it has passed through is
    passed through again. *)
Theorem format_date_idempotent (iso_date out : string) :
  TwitterAPIService._format_date iso_date = Ok out ->
  TwitterAPIService._format_date out = Ok out.
Proof.
  unfold TwitterAPIService._format_date at 1. unfold Iso.fromisoformat.
  destruct (Iso.parse (Py.replace "Z" "+00:00" iso_date)) as [dt|] eqn:Hparse.
  - intros H. inversion H; subst out; clear H.
    apply parse_valid in Hparse. destruct Hparse as (_ & _ & _ & Hh & _).
    unfold TwitterAPIService._format_date, Iso.fromisoformat,
      Datetime.strftime_display, Datetime.hour12.
    rewrite display_not_iso; [reflexivity|].
    destruct (Z.eqb_spec (hour dt mod 12) 0); [lia|].
    pose proof (Z.mod_pos_bound (hour dt) 12). lia.
  - intros H. inversion H; subst out; clear H.
    unfold TwitterAPIService._format_date, Iso.fromisoformat.
    now rewrite Hparse.
Qed.

Lemma format_date_idempotent_witness :
  TwitterAPIService._format_date "2:30 PM - 15 Mar 2023"
    = Ok "2:30 PM - 15 Mar 2023".
Proof.
  apply (format_date_idempotent "2023-03-15T14:30:00.000Z").
  reflexivity.
Defined.

(** ** Keys that differ in their markers *)

Lemma matching_account_lower u1 u2 :
  Py.lower u1 = Py.lower u2 ->
  TwitterMockService.matching_account u1 = TwitterMockService.matching_account u2.
Proof.
  intros H. unfold TwitterMockService.matching_account. now rewrite H.
Qed.

(** Keys that normalize alike are served alike, by operation. *)
Lemma keys_normalized_alike
  (k1 k2 : string) (limit : Z) (w : World) (api : Upstream) :
  k1 <> EmptyString -> k2 <> EmptyString ->
  (TwitterMockService.normalize_hashtag k1 = TwitterMockService.normalize_hashtag k2 ->
   TwitterMockService.get_tweets_by_hashtag k1 limit w
     = TwitterMockService.get_tweets_by_hashtag k2 limit w) /\
  (Py.lstrip "#" k1 = Py.lstrip "#" k2 ->
   TwitterAPIService.get_tweets_by_hashtag api k1 limit
     = TwitterAPIService.get_tweets_by_hashtag api k2 limit) /\
  (Py.lstrip "@" k1 = Py.lstrip "@" k2 ->
   TwitterMockService.get_user_tweets k1 limit w
     = TwitterMockService.get_user_tweets k2 limit w /\
   TwitterAPIService.get_user_tweets api k1 limit
     = TwitterAPIService.get_user_tweets api k2 limit) /\
  (Py.lower (Py.lstrip "@" k1) = Py.lower (Py.lstrip "@" k2) ->
   TwitterMockService.matching_account (Py.lstrip "@" k1) <> None ->
   TwitterMockService.get_user_tweets k1 limit w
     = TwitterMockService.get_user_tweets k2 limit w).
Proof.
  intros H1 H2. destruct k1 as [|c1 k1]; [congruence|].
  destruct k2 as [|c2 k2]; [congruence|].
  cbn [TwitterMockService.get_tweets_by_hashtag TwitterMockService.get_user_tweets
       TwitterAPIService.get_tweets_by_hashtag TwitterAPIService.get_user_tweets].
  unfold TwitterAPIService.normalize_hashtag, TwitterAPIService.normalize_username,
    TwitterMockService.normalize_username.
  split; [now intros ->|]. split; [now intros ->|]. split; [now intros ->|].
  intros Hlow Hknown. unfold TwitterMockService.resolve_account.
  rewrite <- (matching_account_lower _ _ Hlow).
  destruct (TwitterMockService.matching_account _); [reflexivity | congruence].
Qed.

(** X13. Two non-empty keys that normalize alike are served alike: on the
    synthetic backend tags that differ in leading [#] and in case, on the
    upstream backend tags that differ in leading [#], on both backends
    handles that differ in leading [@], and on the synthetic backend handles
    of an account of the sample pool that differ in case as well. *)
Theorem keys_up_to_markers
  (t1 t2 q1 q2 h1 h2 p1 p2 : string) (limit : Z) (w : World) (api : Upstream) :
  t1 <> EmptyString -> t2 <> EmptyString ->
  TwitterMockService.normalize_hashtag t1 = TwitterMockService.normalize_hashtag t2 ->
  q1 <> EmptyString -> q2 <> EmptyString ->
  Py.lstrip "#" q1 = Py.lstrip "#" q2 ->
  h1 <> EmptyString -> h2 <> EmptyString ->
  Py.lstrip "@" h1 = Py.lstrip "@" h2 ->
  p1 <> EmptyString -> p2 <> EmptyString ->
  Py.lower (Py.lstrip "@" p1) = Py.lower (Py.lstrip "@" p2) ->
  TwitterMockService.matching_account (Py.lstrip "@" p1) <> None ->
  TwitterMockService.get_tweets_by_hashtag t1 limit w
    = TwitterMockService.get_tweets_by_hashtag t2 limit w /\
  TwitterAPIService.get_tweets_by_hashtag api q1 limit
    = TwitterAPIService.get_tweets_by_hashtag api q2 limit /\
  TwitterMockService.get_user_tweets h1 limit w
    = TwitterMockService.get_user_tweets h2 limit w /\
  TwitterAPIService.get_user_tweets api h1 limit
    = TwitterAPIService.get_user_tweets api h2 limit /\
  TwitterMockService.get_user_tweets p1 limit w
    = TwitterMockService.get_user_tweets p2 limit w.
Proof.
  intros Ht1 Ht2 Ht Hq1 Hq2 Hq Hh1 Hh2 Hh Hp1 Hp2 Hp Hpool.
  destruct (keys_normalized_alike t1 t2 limit w api Ht1 Ht2) as (Htag & _).
  destruct (keys_normalized_alike q1 q2 limit w api Hq1 Hq2) as (_ & Hquery & _).
  destruct (keys_normalized_alike h1 h2 limit w api Hh1 Hh2) as (_ & _ & Hhandle & _).
  destruct (keys_normalized_alike p1 p2 limit w api Hp1 Hp2) as (_ & _ & _ & Hcase).
  destruct (Hhandle Hh) as [Hmock Hapi].
  split; [exact (Htag Ht)|]. split; [exact (Hquery Hq)|].
  split; [exact Hmock|]. split; [exact Hapi|]. exact (Hcase Hp Hpool).
Qed.

Lemma keys_up_to_markers_witness :
  TwitterMockService.get_tweets_by_hashtag "##Python" 5 sample_world
    = TwitterMockService.get_tweets_by_hashtag "python" 5 sample_world /\
  TwitterAPIService.get_tweets_by_hashtag upstream_by_tag "##badauthor" 5
    = TwitterAPIService.get_tweets_by_hashtag upstream_by_tag "badauthor" 5 /\
  TwitterMockService.get_user_tweets "@@jack" 5 sample_world
    = TwitterMockService.get_user_tweets "jack" 5 sample_world /\
  TwitterAPIService.get_user_tweets upstream_by_tag "@@jack" 5
    = TwitterAPIService.get_user_tweets upstream_by_tag "jack" 5 /\
  TwitterMockService.get_user_tweets "@GvanRossum" 5 sample_world
    = TwitterMockService.get_user_tweets "gvanrossum" 5 sample_world.
Proof.
  apply (keys_up_to_markers "##Python" "python" "##badauthor" "badauthor"
           "@@jack" "jack" "@GvanRossum" "gvanrossum" 5 sample_world
           upstream_by_tag);
    first [discriminate | reflexivity].
Defined.

(** ** Constructing a service *)

(** X14. [TwitterAPIService] is constructed exactly when the token passed to
    it or the token of the environment is not empty, the token passed going
    first, and the instance sends that token as ["Bearer <token>"]; without
    either the constructor raises [ValueError]. [get_twitter_service] never
    raises: it builds the upstream service on the environment's token when
    there is one, and otherwise the synthetic service, whose generator it
    puts at the start of the stream of the seed 42. *)
Theorem service_construction
  (seeded : nat -> N) (token env : option string) (w : World) :
  match Services.TwitterAPIService_init token env with
  | Ok instance =>
      Some (Services.bearer_token instance)
        = (if Services.truthy token then token else env) /\
      Services.truthy token || Services.truthy env = true /\
      In ("Authorization", "Bearer " +:+ Services.bearer_token instance)
         (Services.headers instance)
  | Err e =>
      Services.truthy token = false /\ Services.truthy env = false /\
      exists msg, e = ValueError msg
  end /\
  match Services.get_twitter_service seeded env w with
  | (Ok (Services.Api instance), w') =>
      Services.truthy env = true /\ env = Some (Services.bearer_token instance) /\
      w' = w
  | (Ok Services.Mock, w') =>
      Services.truthy env = false /\
      w' = mkWorld seeded (clock w) 0 (ticked w)
  | (Err _, _) => False
  end.
Proof.
  split.
  - unfold Services.TwitterAPIService_init, Services.or_else.
    destruct token as [[|c t]|]; cbn [Services.truthy];
      destruct env as [[|c' t']|]; cbn [Services.truthy orb];
      repeat split; eauto; now left.
  - unfold Services.get_twitter_service, Services.TwitterAPIService_init,
      Services.or_else.
    destruct env as [[|c t]|]; cbn; repeat split.
Qed.

(** ** The handlers of the two routes *)


Lemma seeded_world_clock seeded w :
  valid_clock w -> valid_clock (mkWorld seeded (clock w) 0 (ticked w)).
Proof. intros H k. exact (H k). Qed.

(** X15. With no token in the environment, a request for a key that is not
    empty and a limit from 1 to 100 is answered by the handlers with the
    serialized tweets of the synthetic backend: exactly [limit] of them, each
    with the requested tag among its hashtags on [/hashtags], all by one
    account on [/users]. *)
Theorem routes_serve_synthetic
  (seeded : nat -> N) (env : option string) (api : Upstream)
  (key : string) (limit : Z) (w : World) :
  Services.truthy env = false -> key <> EmptyString -> 1 <= limit <= 100 ->
  valid_clock w ->
  (exists tweets w',
      Routes.get_tweets_by_hashtag seeded env api key limit w
        = (JSONResponse (map Tweet_to_dict tweets), w') /\
      Z.of_nat (length tweets) = limit /\
      Forall (fun t => In ("#" +:+ TwitterMockService.normalize_hashtag key)
                          (hashtags t)) tweets) /\
  (exists tweets w' acct,
      Routes.get_user_tweets seeded env api key limit w
        = (JSONResponse (map Tweet_to_dict tweets), w') /\
      Z.of_nat (length tweets) = limit /\
      Forall (fun t => account t = acct) tweets).
Proof.
  intros Henv Hkey Hlimit Hclock.
  pose proof (seeded_world_clock seeded w Hclock) as Hclock'.
  assert (Hallow : clock_allows (mkWorld seeded (clock w) 0 (ticked w)) limit)
    by (apply valid_clock_allows; [exact Hclock' | lia]).
  unfold Routes.get_tweets_by_hashtag, Routes.get_user_tweets, Routes.respond,
    Services.get_twitter_service, bind.
  rewrite Henv. unfold Services.TwitterMockService_init, ret.
  cbn [Services.get_tweets_by_hashtag Services.get_user_tweets].
  split.
  - destruct (returns_get_tweets_by_hashtag key limit _ Hkey Hallow)
      as (tweets & w' & Hrun & _ & _ & _ & Hlen & Hall).
    rewrite Hrun. exists tweets, w'. split; [reflexivity|]. split; [lia|].
    eapply Forall_impl; [exact Hall|]. cbn beta. intros t (_ & Hf & _).
    now apply tag_forced_In.
  - destruct (returns_get_user_tweets key limit _ Hkey Hallow)
      as (acct & _ & tweets & w' & Hrun & _ & _ & _ & Hlen & Hall).
    rewrite Hrun. exists tweets, w', acct. split; [reflexivity|]. split; [lia|].
    eapply Forall_impl; [exact Hall|]. cbn beta. tauto.
Qed.

Lemma routes_serve_synthetic_witness :
  (exists tweets w',
      Routes.get_tweets_by_hashtag (fun k => N.of_nat k) None sample_upstream
        "python" 30 sample_world
        = (JSONResponse (map Tweet_to_dict tweets), w') /\
      Z.of_nat (length tweets) = 30 /\
      Forall (fun t => In "#python" (hashtags t)) tweets) /\
  (exists tweets w' acct,
      Routes.get_user_tweets (fun k => N.of_nat k) None sample_upstream
        "python" 30 sample_world
        = (JSONResponse (map Tweet_to_dict tweets), w') /\
      Z.of_nat (length tweets) = 30 /\
      Forall (fun t => account t = acct) tweets).
Proof.
  apply (routes_serve_synthetic (fun k => N.of_nat k) None sample_upstream
           "python" 30 sample_world).
  - reflexivity.
  - discriminate.
  - lia.
  - exact sample_world_valid.
Defined.

(** X16. The handlers construct their service anew for every request, and
    the synthetic service reseeds the generator when it is constructed: with
    no token in the environment, the response to a request depends on the
    clock alone, not on what the generator has produced before. *)
Theorem routes_reproducible
  (seeded : nat -> N) (env : option string) (api : Upstream)
  (key : string) (limit : Z) (w1 w2 : World) :
  Services.truthy env = false ->
  clock w1 = clock w2 -> ticked w1 = ticked w2 ->
  Routes.get_tweets_by_hashtag seeded env api key limit w1
    = Routes.get_tweets_by_hashtag seeded env api key limit w2 /\
  Routes.get_user_tweets seeded env api key limit w1
    = Routes.get_user_tweets seeded env api key limit w2.
Proof.
  intros Henv Hclock Hticked.
  unfold Routes.get_tweets_by_hashtag, Routes.get_user_tweets, Routes.respond,
    Services.get_twitter_service, bind.
  rewrite Henv. unfold Services.TwitterMockService_init, ret.
  now rewrite Hclock, Hticked.
Qed.

Lemma routes_reproducible_witness :
  Routes.get_tweets_by_hashtag (fun k => N.of_nat k) None sample_upstream
    "python" 3 sample_world
    = Routes.get_tweets_by_hashtag (fun k => N.of_nat k) None sample_upstream
        "python" 3 (mkWorld (fun _ => 99%N) (clock sample_world) 1234 0) /\
  Routes.get_user_tweets (fun k => N.of_nat k) None sample_upstream
    "python" 3 sample_world
    = Routes.get_user_tweets (fun k => N.of_nat k) None sample_upstream
        "python" 3 (mkWorld (fun _ => 99%N) (clock sample_world) 1234 0).
Proof.
  apply (routes_reproducible (fun k => N.of_nat k) None sample_upstream
           "python" 3 sample_world
           (mkWorld (fun _ => 99%N) (clock sample_world) 1234 0));
    reflexivity.
Defined.




(** ** Serialization *)

Lemma map_JStr_inj l1 : forall l2, map JStr l1 = map JStr l2 -> l1 = l2.
Proof.
  induction l1 as [|x l1 IH]; intros [|y l2] H; try discriminate; auto.
  cbn in H. inversion H. f_equal. now apply IH.
Qed.

(** X18. [to_dict] loses nothing: two tweets with the same dictionary are
    the same tweet, and each field can be read back under its key. *)
Theorem to_dict_injective (t1 t2 : Tweet) :
  Tweet_to_dict t1 = Tweet_to_dict t2 ->
  t1 = t2 /\
  match Tweet_to_dict t1 with
  | JDict fields =>
      json_get "account" fields = Some (Account_to_dict (account t1)) /\
      json_get "text" fields = Some (JStr (text t1)) /\
      json_get "date" fields = Some (JStr (date t1)) /\
      json_get "replies" fields = Some (JInt (replies t1)) /\
      json_get "retweets" fields = Some (JInt (retweets t1)) /\
      json_get "likes" fields = Some (JInt (likes t1)) /\
      json_get "hashtags" fields = Some (JList (map JStr (hashtags t1))) /\
      json_get "id" fields = None
  | _ => False
  end.
Proof.
  intros H. split; [|cbn; repeat split].
  destruct t1 as [[f1 h1 i1] d1 x1 r1 rt1 l1 hs1].
  destruct t2 as [[f2 h2 i2] d2 x2 r2 rt2 l2 hs2].
  unfold Tweet_to_dict, Account_to_dict in H. cbn in H.
  inversion H. subst. f_equal. now apply map_JStr_inj.
Qed.

Lemma to_dict_injective_witness :
  mkTweet (mkAccount "Test User" "/testuser" 12345) "2:54 PM - 8 Mar 2018"
          "Test tweet #python" 10 20 100 ["#python"]
  = mkTweet (mkAccount "Test User" "/testuser" 12345) "2:54 PM - 8 Mar 2018"
            "Test tweet #python" (5 + 5) 20 100 ["#python"] /\
  match Tweet_to_dict
          (mkTweet (mkAccount "Test User" "/testuser" 12345)
             "2:54 PM - 8 Mar 2018" "Test tweet #python" 10 20 100 ["#python"])
  with
  | JDict fields =>
      json_get "account" fields
        = Some (Account_to_dict (mkAccount "Test User" "/testuser" 12345)) /\
      json_get "text" fields = Some (JStr "Test tweet #python") /\
      json_get "date" fields = Some (JStr "2:54 PM - 8 Mar 2018") /\
      json_get "replies" fields = Some (JInt 10) /\
      json_get "retweets" fields = Some (JInt 20) /\
      json_get "likes" fields = Some (JInt 100) /\
      json_get "hashtags" fields = Some (JList (map JStr ["#python"])) /\
      json_get "id" fields = None
  | _ => False
  end.
Proof.
  apply (to_dict_injective
           (mkTweet (mkAccount "Test User" "/testuser" 12345)
              "2:54 PM - 8 Mar 2018" "Test tweet #python" 10 20 100 ["#python"])
           (mkTweet (mkAccount "Test User" "/testuser" 12345)
              "2:54 PM - 8 Mar 2018" "Test tweet #python" (5 + 5) 20 100
              ["#python"])).
  reflexivity.
Defined.

(** ** Dates out of range *)

Lemma returns_then_overflows {A B} (m : M A) (k : A -> M B) w c P :
  returns m w c P ->
  (forall a w', clock w' = clock w -> overflows (k a) w') ->
  overflows (bind m k) w.
Proof.
  intros (a & w1 & Hm & Hc & _) Hk. destruct (Hk a w1 Hc) as [w2 H2].
  exists w2. unfold bind. now rewrite Hm.
Qed.

Lemma returns_then_either {A B} (m : M A) (k : A -> M B) w c P :
  returns m w c P ->
  (forall a w', clock w' = clock w -> returns_or_overflows (k a) w') ->
  returns_or_overflows (bind m k) w.
Proof.
  intros (a & w1 & Hm & Hc & _) Hk.
  destruct (Hk a w1 Hc) as [(b & w2 & H2 & Hc2) | [w2 H2]].
  - left. exists b, w2. unfold bind. rewrite Hm. split; [exact H2 | congruence].
  - right. exists w2. unfold bind. now rewrite Hm.
Qed.

Lemma either_then_returns {A B} (m : M A) (k : A -> M B) w :
  returns_or_overflows m w ->
  (forall a w', clock w' = clock w ->
                exists b w'', k a w' = (Ok b, w'') /\ clock w'' = clock w') ->
  returns_or_overflows (bind m k) w.
Proof.
  intros [(a & w1 & Hm & Hc) | [w1 Hm]] Hk.
  - destruct (Hk a w1 Hc) as (b & w2 & H2 & Hc2).
    left. exists b, w2. unfold bind. rewrite Hm. split; [exact H2 | congruence].
  - right. exists w1. unfold bind. now rewrite Hm.
Qed.

Lemma overflows_then {A B} (m : M A) (k : A -> M B) w :
  overflows m w -> overflows (bind m k) w.
Proof.
  intros [w1 Hm]. exists w1. unfold bind. now rewrite Hm.
Qed.

Lemma generate_date_either i w :
  returns_or_overflows (TwitterMockService._generate_date i) w.
Proof.
  unfold returns_or_overflows, overflows, TwitterMockService._generate_date,
    bind, Datetime.now. cbv beta iota.
  destruct ((_ <? 0) || _).
  - right. eexists. reflexivity.
  - left. eexists _, _. split; reflexivity.
Qed.

Lemma generate_date_overflows i w :
  (forall k, clock w k < i * 43200) ->
  overflows (TwitterMockService._generate_date i) w.
Proof.
  intros H. specialize (H (ticked w)).
  unfold overflows, TwitterMockService._generate_date, bind, Datetime.now.
  cbv beta iota.
  destruct (Z.ltb_spec (clock w (ticked w) - i * 43200) 0); [|lia].
  cbn [orb]. eexists. reflexivity.
Qed.

Lemma metrics_return (g : Z -> Z -> Z -> Tweet) w :
  exists t w',
    (let* replies := random.randint 0 500 in
     let* retweets := random.randint 0 1000 in
     let* likes := random.randint 0 5000 in
     ret (g replies retweets likes)) w = (Ok t, w') /\ clock w' = clock w.
Proof.
  assert (H : returns
            (let* replies := random.randint 0 500 in
             let* retweets := random.randint 0 1000 in
             let* likes := random.randint 0 5000 in
             ret (g replies retweets likes)) w (1 + (1 + (1 + 0)))
            (fun _ => True)).
  { next_randint r1 Hr1. next_randint r2 Hr2. next_randint r3 Hr3.
    now apply returns_ret. }
  destruct H as (t & w' & H & Hc & _). eauto.
Qed.

Lemma hashtag_tweet_either key i w :
  returns_or_overflows (TwitterMockService.hashtag_tweet key i) w.
Proof.
  unfold TwitterMockService.hashtag_tweet.
  eapply returns_then_either; [apply returns_choice; discriminate|].
  intros acc w1 _.
  eapply returns_then_either; [apply returns_choice; discriminate|].
  intros base w2 _.
  destruct (if negb _ then _ else _) as [eh tx].
  apply either_then_returns; [apply generate_date_either|].
  intros d w3 _.
  apply (metrics_return
           (fun r1 r2 r3 =>
              mkTweet acc d tx r1 r2 r3 (map (fun tag => "#" +:+ tag) eh))).
Qed.

Lemma hashtag_tweet_overflows key i w :
  (forall k, clock w k < i * 43200) ->
  overflows (TwitterMockService.hashtag_tweet key i) w.
Proof.
  intros H. unfold TwitterMockService.hashtag_tweet.
  eapply returns_then_overflows; [apply returns_choice; discriminate|].
  intros acc w1 Hc1.
  eapply returns_then_overflows; [apply returns_choice; discriminate|].
  intros base w2 Hc2.
  destruct (if negb _ then _ else _) as [eh tx].
  apply overflows_then, generate_date_overflows.
  intros k. rewrite Hc2, Hc1. apply H.
Qed.

Lemma user_tweet_either acct i w :
  returns_or_overflows (TwitterMockService.user_tweet acct i) w.
Proof.
  unfold TwitterMockService.user_tweet.
  eapply returns_then_either; [apply returns_choice; discriminate|].
  intros base w1 _.
  apply either_then_returns; [apply generate_date_either|].
  intros d w2 _.
  apply (metrics_return
           (fun r1 r2 r3 =>
              mkTweet acct d base r1 r2 r3
                (List.filter (Py.startswith "#") (Py.split base)))).
Qed.

Lemma user_tweet_overflows acct i w :
  (forall k, clock w k < i * 43200) ->
  overflows (TwitterMockService.user_tweet acct i) w.
Proof.
  intros H. unfold TwitterMockService.user_tweet.
  eapply returns_then_overflows; [apply returns_choice; discriminate|].
  intros base w1 Hc1.
  apply overflows_then, generate_date_overflows.
  intros k. rewrite Hc1. apply H.
Qed.

(** A loop whose last iteration raises, raises: at the last iteration or at
    an earlier one. *)
Lemma for_range_overflows {A} (body : Z -> M A) :
  forall count start w,
    (forall i w', clock w' = clock w -> returns_or_overflows (body i) w') ->
    (forall w', clock w' = clock w ->
                overflows (body (start + Z.of_nat count)) w') ->
    overflows (for_range body start (S count)) w.
Proof.
  induction count as [|count IH]; intros start w Hany Hlast.
  - cbn [for_range]. apply overflows_then.
    replace start with (start + Z.of_nat 0) by (cbn; lia). now apply Hlast.
  - change (for_range body start (S (S count)))
      with (let* x := body start in
            let* xs := for_range body (start + 1) (S count) in
            ret (x :: xs)).
    destruct (Hany start w eq_refl) as [(a & w1 & Ha & Hc1) | Hover];
      [|now apply overflows_then].
    assert (Hrest : overflows (for_range body (start + 1) (S count)) w1).
    { apply IH.
      - intros i w' Hc. apply Hany. congruence.
      - intros w' Hc.
        replace (start + 1 + Z.of_nat count) with (start + Z.of_nat (S count))
          by lia.
        apply Hlast. congruence. }
    destruct Hrest as [w2 Hrest]. exists w2. unfold bind.
    now rewrite Ha, Hrest.
Qed.

(** X19. A limit the clock does not allow raises [OverflowError]: when every
    reading of the clock lies less than [limit - 1] half days after
    0001-01-01, both operations of the synthetic backend raise
    ["date value out of range"] and return no tweet at all. *)
Theorem synthetic_limit_overflows (w : World) (key : string) (limit : Z) :
  key <> EmptyString -> 1 <= limit ->
  (forall k, clock w k < (limit - 1) * 43200) ->
  overflows (TwitterMockService.get_tweets_by_hashtag key limit) w /\
  overflows (TwitterMockService.get_user_tweets key limit) w.
Proof.
  intros Hkey Hlimit Hclock. destruct key as [|c key]; [congruence|].
  cbn [TwitterMockService.get_tweets_by_hashtag TwitterMockService.get_user_tweets].
  unfold for_in_range.
  assert (Hn : Z.to_nat limit = S (Z.to_nat (limit - 1))) by lia.
  rewrite Hn.
  assert (Hlast : 0 + Z.of_nat (Z.to_nat (limit - 1)) = limit - 1) by lia.
  split.
  - apply for_range_overflows.
    + intros i w' _. apply hashtag_tweet_either.
    + intros w' Hc. rewrite Hlast. apply hashtag_tweet_overflows.
      intros k. rewrite Hc. apply Hclock.
  - eapply returns_then_overflows; [apply returns_resolve_account|].
    intros acct w1 Hc1. apply for_range_overflows.
    + intros i w' _. apply user_tweet_either.
    + intros w' Hc. rewrite Hlast. apply user_tweet_overflows.
      intros k. rewrite Hc, Hc1. apply Hclock.
Qed.

Lemma synthetic_limit_overflows_witness :
  overflows (TwitterMockService.get_tweets_by_hashtag "python" 2000000)
            sample_world /\
  overflows (TwitterMockService.get_user_tweets "python" 2000000) sample_world.
Proof.
  apply (synthetic_limit_overflows sample_world "python" 2000000).
  - discriminate.
  - lia.
  - intros k. cbn [clock sample_world]. lia.
Defined.

(** ** Unknown handles on the route *)

Lemma lower_upper_char c : Py.lower_char (Py.upper_char c) = Py.lower_char c.
Proof.
  destruct c as [[] [] [] [] [] [] [] []]; reflexivity.
Qed.

(** [title] changes the case of letters and nothing else. *)
Lemma lower_title_go s : forall b, Py.lower (Py.title_go b s) = Py.lower s.
Proof.
  induction s as [|c s IH]; intros b; cbn [Py.title_go Py.lower];
    [reflexivity|].
  destruct (Py.iscased c) eqn:Hc; cbn [Py.lower]; rewrite IH; f_equal.
  destruct b; [apply lower_char_idempotent | apply lower_upper_char].
Qed.

(** The first [randint(1000000, 99999999)] of a stream lies in that range. *)
Lemma first_randint_range seeded : 1000000 <= first_randint seeded <= 99999999.
Proof.
  unfold first_randint, random.randint.
  change (99999999 - 1000000 + 1) with 99000000.
  change (99000000 <=? 0) with false. cbv iota.
  unfold random._randbelow, bind, ret. cbn [fst randoms drawn].
  pose proof (Z.mod_pos_bound (Z.of_N (seeded 0%nat)) 99000000 ltac:(lia)).
  lia.
Qed.

(** X20. Through [/users], with no token in the environment, every handle
    of ASCII characters that is not in the sample pool gets the same account
    id: the number the first [randint(1000000, 99999999)] of the freshly
    seeded generator returns. The account has ["/" + handle] as its [href]
    and the handle, up to the case of its letters, as its [fullname], and all
    [limit] tweets carry it. *)
Theorem users_route_unknown_handle
  (seeded : nat -> N) (env : option string) (api : Upstream)
  (handle : string) (limit : Z) (w : World) :
  Services.truthy env = false -> handle <> EmptyString ->
  Py.isascii handle = true ->
  TwitterMockService.matching_account (Py.lstrip "@" handle) = None ->
  1 <= limit <= 100 -> valid_clock w ->
  let acct :=
    mkAccount (Py.title (Py.lstrip "@" handle)) ("/" +:+ Py.lstrip "@" handle)
              (first_randint seeded) in
  Py.lower (fullname acct) = Py.lower (Py.lstrip "@" handle) /\
  1000000 <= id acct <= 99999999 /\
  exists tweets w',
    Routes.get_user_tweets seeded env api handle limit w
      = (JSONResponse (map Tweet_to_dict tweets), w') /\
    Z.of_nat (length tweets) = limit /\
    Forall (fun t => account t = acct) tweets.
Proof.
  intros Henv Hne _ Hunknown Hlimit Hclock acct.
  split; [apply lower_title_go|].
  split; [apply first_randint_range|].
  pose proof (seeded_world_clock seeded w Hclock) as Hclock'.
  unfold Routes.get_user_tweets, Routes.respond,
    Services.get_twitter_service, bind.
  rewrite Henv. unfold Services.TwitterMockService_init, ret.
  cbn [Services.get_user_tweets].
  destruct handle as [|c handle]; [congruence|].
  cbn [TwitterMockService.get_user_tweets].
  unfold TwitterMockService.normalize_username,
    TwitterMockService.resolve_account.
  rewrite Hunknown.
  set (w1 := mkWorld seeded (clock w) 1 (ticked w)).
  assert (Hresolve :
    (let* id := random.randint 1000000 99999999 in
     ret (mkAccount (Py.title (Py.lstrip "@" (String c handle)))
                    ("/" +:+ Py.lstrip "@" (String c handle)) id))
      (mkWorld seeded (clock w) 0 (ticked w)) = (Ok acct, w1)) by reflexivity.
  unfold bind at 1. rewrite Hresolve.
  assert (Hallow : clock_allows w1 limit)
    by (apply valid_clock_allows; [exact Hclock' | lia]).
  assert (Hloop :
    returns (for_in_range limit (TwitterMockService.user_tweet acct)) w1
      (Z.to_nat limit * 4)
      (fun tweets => length tweets = Z.to_nat limit /\
                     Forall (fun t => account t = acct) tweets)).
  { unfold for_in_range. eapply returns_weaken.
    - apply returns_for_range. intros i w2 Hc2 Hi.
      apply returns_user_tweet; [lia|]. rewrite Hc2.
      eapply clock_allows_index; [exact Hallow | lia].
    - cbn beta. intros tweets [Hlen Hall]. split; [exact Hlen|].
      eapply Forall_impl; [exact Hall|]. cbn beta. tauto. }
  destruct Hloop as (tweets & w' & Hrun & _ & _ & _ & Hlen & Hall).
  rewrite Hrun. exists tweets, w'. split; [reflexivity|]. split; [lia | exact Hall].
Qed.

Lemma users_route_unknown_handle_witness :
  let acct := mkAccount "Unknownuser123" "/unknownuser123" 1000042 in
  Py.lower (fullname acct) = Py.lower "unknownuser123" /\
  1000000 <= id acct <= 99999999 /\
  exists tweets w',
    Routes.get_user_tweets (fun k => N.of_nat (k + 42)) None sample_upstream
      "@unknownuser123" 5 sample_world
      = (JSONResponse (map Tweet_to_dict tweets), w') /\
    Z.of_nat (length tweets) = 5 /\
    Forall (fun t => account t = acct) tweets.
Proof.
  apply (users_route_unknown_handle (fun k => N.of_nat (k + 42)) None
           sample_upstream "@unknownuser123" 5 sample_world).
  - reflexivity.
  - discriminate.
  - reflexivity.
  - reflexivity.
  - lia.
  - exact sample_world_valid.
Defined.
